(** * Activity-type inference of strava_cli.py

    A shallow embedding of the activity classifier of [src/strava_cli.py]
    (lines 15-32 and 149-312): the haversine distance, the label normaliser,
    the three detectors [test_metadata], [test_keywords] and [test_data], the
    track parser [extract_points] and the combiner [determine_gpx_activity].
    The rest of the tool follows: the configuration file, the log of
    uploaded files, the authorisation code and the fields of an upload
    request (lines 35-92, 110-118, 415-445 and 509-519).

    Python values are modelled as the code has them:
    - [str] is a [string] holding the UTF-8 bytes of the text (substring
      tests on UTF-8 bytes agree with substring tests on code points);
    - [float] is an IEEE-754 binary64 number, [PrimFloat.float];
    - a detector verdict is the object the function returns, the [int] 0 or
      a [str];
    - an exception is an explicit [Raise] in the [result] type;
    - an [xml.etree.ElementTree.Element] is a node with its qualified tag
      [{uri}local], its attribute dictionary, its text and its children.

    Functions of the Python library whose behaviour is not written in the
    source ([str.lower], [float], [datetime.fromisoformat], [math.sin] ...)
    are the fields of the class [PyLib]; every theorem holds for all of its
    instances, and [ref_lib] is an executable instance used on examples. *)

From Stdlib Require Import ZArith Ascii Floats Uint63.
From Stdlib Require Import DecimalString DecimalPos DecimalN.
From stdpp Require Import base option list strings gmap.

Local Open Scope Z_scope.

(** ** Python objects, exceptions *)

Inductive exn : Type :=
  | AttributeError | TypeError | ValueError | ZeroDivisionError
  | OverflowError | IndexError.

Inductive result (A : Type) : Type :=
  | Ok (a : A)
  | Raise (e : exn).
Arguments Ok {A} a.
Arguments Raise {A} e.

Definition bind {A B} (m : result A) (k : A → result B) : result B :=
  match m with
  | Ok a => k a
  | Raise e => Raise e
  end.

Notation "x ←! m ; k" := (bind m (fun x => k))
  (at level 20, m at level 100, k at level 200, right associativity,
   format "'[v' x  ←!  m ; '/' k ']'").

(** The objects that flow through the classifier: [None], an [int], a [str]. *)
Inductive pyobj : Type :=
  | PyNone
  | PyInt (n : Z)
  | PyStr (s : string).

Global Instance pyobj_eq_dec : EqDecision pyobj.
Proof. solve_decision. Defined.

(** Truth value of an object ([if not label]). *)
Definition truthy (o : pyobj) : bool :=
  match o with
  | PyNone => false
  | PyInt n => negb (n =? 0)
  | PyStr s => negb (String.eqb s "")
  end.

(** [r != 0]: a [str] or [None] never equals the integer 0. *)
Definition ne_zero (o : pyobj) : bool :=
  match o with
  | PyInt n => negb (n =? 0)
  | _ => true
  end.

(** ** Strings *)

Module Str.

(** [text.startswith(k)] *)
Fixpoint startswith (k text : string) : bool :=
  match k, text with
  | EmptyString, _ => true
  | String a k', String b text' => Ascii.eqb a b && startswith k' text'
  | String _ _, EmptyString => false
  end.

(** [k in text]: [k] occurs in [text] as a contiguous substring. *)
Fixpoint contains (k text : string) : bool :=
  startswith k text ||
  match text with
  | EmptyString => false
  | String _ text' => contains k text'
  end.

(** [text.endswith(k)] *)
Fixpoint endswith (k text : string) : bool :=
  String.eqb k text ||
  match text with
  | EmptyString => false
  | String _ text' => endswith k text'
  end.

(** [text.replace(old, new)] for a one-character [old]: every occurrence
    is replaced. *)
Fixpoint replace (old : ascii) (new text : string) : string :=
  match text with
  | EmptyString => EmptyString
  | String c text' =>
      if Ascii.eqb c old then new +:+ replace old new text'
      else String c (replace old new text')
  end.

(** [sep.join(texts)] *)
Fixpoint join (sep : string) (texts : list string) : string :=
  match texts with
  | [] => ""
  | [t] => t
  | t :: rest => t +:+ sep +:+ join sep rest
  end.

(** Lower-casing of the ASCII letters, every other byte left alone:
    what [str.lower] does on ASCII text. *)
Definition ascii_lower_char (c : ascii) : ascii :=
  let n := nat_of_ascii c in
  if (Nat.leb 65 n && Nat.leb n 90)%bool then ascii_of_nat (n + 32) else c.

Fixpoint ascii_lower (s : string) : string :=
  match s with
  | EmptyString => EmptyString
  | String c s' => String (ascii_lower_char c) (ascii_lower s')
  end.

Fixpoint is_ascii (s : string) : bool :=
  match s with
  | EmptyString => true
  | String c s' => Nat.ltb (nat_of_ascii c) 128 && is_ascii s'
  end.

(** [s[:-1]] *)
Fixpoint drop_last (s : string) : string :=
  match s with
  | EmptyString => EmptyString
  | String c EmptyString => EmptyString
  | String c s' => String c (drop_last s')
  end.

(** The byte [c] occurs in [s]. *)
Fixpoint has_char (c : ascii) (s : string) : bool :=
  match s with
  | EmptyString => false
  | String b s' => Ascii.eqb b c || has_char c s'
  end.

End Str.

(** ** xml.etree.ElementTree *)

(** An element as ElementTree holds it: [tag] is the qualified name, written
    [{uri}local] for a name in a namespace and [local] otherwise; [attrib]
    is the attribute dictionary; [text] is [None] when the element has no
    text before its first child.  The parser of [ET.parse] drops comments
    and processing instructions, so every tag is a string. *)
#[local] Set Warnings "-register-all".
Inductive Element : Type :=
  Elem (tag : string) (attrib : gmap string string) (text : option string)
       (children : list Element).

Module ET.

Definition tag (e : Element) : string :=
  match e with Elem t _ _ _ => t end.
Definition attrib (e : Element) : gmap string string :=
  match e with Elem _ a _ _ => a end.
Definition text (e : Element) : option string :=
  match e with Elem _ _ x _ => x end.
Definition children (e : Element) : list Element :=
  match e with Elem _ _ _ cs => cs end.

(** [elem.iter()]: the element itself, then its descendants, in document
    order. *)
Fixpoint iter (e : Element) : list Element :=
  match e with
  | Elem _ _ _ cs =>
      e :: (fix iter_all (l : list Element) : list Element :=
              match l with
              | [] => []
              | c :: l' => iter c ++ iter_all l'
              end) cs
  end.

(** The proper descendants of [e] in document order, the candidates of a
    [.//] step. *)
Definition descendants (e : Element) : list Element :=
  flat_map iter (children e).

(** The test ElementPath compiles for the step [{*}name]: the tag is [name]
    itself or ends with [}name]. *)
Definition match_any_ns (name el_tag : string) : bool :=
  String.eqb el_tag name || Str.endswith ("}" +:+ name) el_tag.

(** [elem.findall(".//{*}name")] *)
Definition findall_any_ns (name : string) (e : Element) : list Element :=
  List.filter (λ d, match_any_ns name (tag d)) (descendants e).

(** [elem.find("{*}name")]: the first child that matches, or [None]. *)
Definition find_any_ns (name : string) (e : Element) : option Element :=
  List.find (λ c, match_any_ns name (tag c)) (children e).

(** The local part of a qualified tag: what follows the last [}]. *)
Fixpoint local_name (el_tag : string) : string :=
  match el_tag with
  | EmptyString => EmptyString
  | String c rest =>
      if Str.has_char "}" rest then local_name rest
      else if Ascii.eqb c "}" then rest
      else el_tag
  end.

End ET.

(** ** datetime *)

(** A [datetime]: the wall-clock fields as microseconds since
    0001-01-01T00:00:00, and the UTC offset in microseconds of an aware
    value ([None] for a naive one). *)
Record datetime : Type := Datetime {
  wall_us : Z;
  utcoffset : option Z
}.

Module DT.

(** [a - b] as a [timedelta], in microseconds.  Two naive values differ by
    their wall clocks, two aware values by their instants, and mixing the
    two kinds raises [TypeError]. *)
Definition sub (a b : datetime) : result Z :=
  match utcoffset a, utcoffset b with
  | None, None => Ok (wall_us a - wall_us b)
  | Some oa, Some ob => Ok ((wall_us a - wall_us b) - (oa - ob))
  | _, _ => Raise TypeError
  end.

End DT.

(** ** Floats *)

Module Fl.

(** [x / y] on floats: division by zero raises. *)
Definition truediv (x y : float) : result float :=
  if PrimFloat.eqb y 0 then Raise ZeroDivisionError
  else Ok (PrimFloat.div x y).

(** [math.sqrt]: the correctly rounded root; a negative argument is a
    domain error. *)
Definition sqrt (x : float) : result float :=
  if PrimFloat.ltb x 0 then Raise ValueError else Ok (PrimFloat.sqrt x).

(** The float of a small integer literal of the source. *)
Definition of_int (z : Z) : float :=
  if z <? 0 then PrimFloat.opp (PrimFloat.of_uint63 (Uint63.of_Z (- z)))
  else PrimFloat.of_uint63 (Uint63.of_Z z).

(** [math.radians]: CPython multiplies by the constant [pi / 180.0]. *)
Definition radians (x : float) : float :=
  PrimFloat.mul x (PrimFloat.div 0x1.921fb54442d18p+1 180).

End Fl.

(** ** The library functions the source calls *)

Class PyLib : Type := {
  (** [s.lower()] *)
  str_lower : string → string;
  (** on ASCII text [lower] maps A-Z to a-z and nothing else *)
  str_lower_ascii :
    ∀ s, Str.is_ascii s = true → str_lower s = Str.ascii_lower s;
  (** [float(s)]; [None] stands for [ValueError] *)
  float_of_str : string → option float;
  (** the empty string is not a number *)
  float_of_str_empty : float_of_str "" = None;
  (** [datetime.fromisoformat(s)]; [None] stands for [ValueError] *)
  fromisoformat : string → option datetime;
  (** [timedelta.total_seconds()] of a difference given in microseconds *)
  total_seconds : Z → float;
  (** [math.sin], [math.cos]: a domain error on an infinite argument *)
  math_sin : float → result float;
  math_cos : float → result float;
  (** [math.atan2] *)
  math_atan2 : float → float → float;
  (** [x ** n] for a float [x] and an int [n] *)
  float_pow : float → Z → result float
}.

Module Import FlNotations.
Infix "+." := PrimFloat.add (at level 50, left associativity).
Infix "-." := PrimFloat.sub (at level 50, left associativity).
Infix "*." := PrimFloat.mul (at level 40, left associativity).
Infix "/." := PrimFloat.div (at level 40, left associativity).
Infix "<." := PrimFloat.ltb (at level 69, no associativity).
Infix "<=." := PrimFloat.leb (at level 69, no associativity).
End FlNotations.

(** ** Module constants (lines 15-32) *)

(** A dictionary that is iterated: its items in insertion order. *)
Definition ACTIVITY_MAP : list (string * list string) :=
  [ ("ride", ["ride"; "bike"; "bicycle"; "cycling"; "rower"; "rad"; "velo";
              "mtb"; "roadbike"]);
    ("run", ["run"; "running"; "jog"; "jogging"; "bieganie"]);
    ("swim", ["swim"; "swimming"; "pool"; "open water"; "basen"; "pływanie"]);
    ("walk", ["walk"; "walking"; "spacer"; "walking activity"]);
    ("hike", ["hike"; "hiking"; "trek"; "trekking"; "mountain"; "góry"]);
    ("workout", ["workout"; "training"; "gym"; "fitness"; "strength"; "hiit"])
  ].

(** A dictionary that is only looked up. *)
Definition NORMALIZED_OUTPUT : gmap string string :=
  list_to_map
    [ ("ride", "Ride"); ("run", "Run"); ("swim", "Swim"); ("walk", "Walk");
      ("hike", "Hike"); ("workout", "Workout"); ("other", "Other") ].

(** A track point, the tuple [(lat, lon, t)]. *)
Definition point : Type := float * float * datetime.

Definition of_option {A} (e : exn) (o : option A) : result A :=
  match o with
  | Some a => Ok a
  | None => Raise e
  end.

(** [collections.Counter]: the distinct elements in order of first
    occurrence, each with its number of occurrences. *)
Fixpoint counter_add (x : pyobj) (c : list (pyobj * nat)) : list (pyobj * nat) :=
  match c with
  | [] => [(x, 1%nat)]
  | (y, n) :: c' =>
      if decide (x = y) then (y, S n) :: c' else (y, n) :: counter_add x c'
  end.

Definition Counter (l : list pyobj) : list (pyobj * nat) :=
  fold_left (λ c x, counter_add x c) l [].

(** [max(items, key=count)]: the first item among those of largest count. *)
Fixpoint max_by_count (best : pyobj * nat) (c : list (pyobj * nat)) : pyobj * nat :=
  match c with
  | [] => best
  | item :: c' =>
      max_by_count (if (best.2 <? item.2)%nat then item else best) c'
  end.

(** [counter.most_common(1)]: empty for an empty counter. *)
Definition most_common_1 (c : list (pyobj * nat)) : list (pyobj * nat) :=
  match c with
  | [] => []
  | item :: c' => [max_by_count item c']
  end.

Section Classifier.

Context {L : PyLib}.

(** ** haversine (lines 149-155) *)

Definition haversine (lat1 lon1 lat2 lon2 : float) : result float :=
  let R := 6371000 in
  let phi1 := Fl.radians lat1 in
  let phi2 := Fl.radians lat2 in
  let dphi := Fl.radians (lat2 -. lat1) in
  let dlambda := Fl.radians (lon2 -. lon1) in
  s1 ←! math_sin (dphi /. 2);
  s1_2 ←! float_pow s1 2;
  c1 ←! math_cos phi1;
  c2 ←! math_cos phi2;
  s2 ←! math_sin (dlambda /. 2);
  s2_2 ←! float_pow s2 2;
  let a := s1_2 +. c1 *. c2 *. s2_2 in
  ra ←! Fl.sqrt a;
  rb ←! Fl.sqrt (1 -. a);
  Ok (Fl.of_int (2 * R) *. math_atan2 ra rb).

(** ** normalize_activity (lines 158-162) *)

Definition normalize_activity (label : pyobj) : result string :=
  if negb (truthy label) then Ok "Other"
  else
    match label with
    | PyStr s => Ok (default "Other" (NORMALIZED_OUTPUT !! str_lower s))
    | _ => Raise AttributeError
    end.

(** ** test_metadata (lines 165-190) *)

Definition META_FIELDS : list string :=
  ["activity"; "sport"; "type"; "activitytype"; "tracktype"; "keywords"].

(** [any(k in text for k in keywords)] *)
Definition any_in (keywords : list string) (text : string) : bool :=
  existsb (λ k, Str.contains k text) keywords.

(** The loop over [ACTIVITY_MAP.items()]: the first activity one of whose
    keywords occurs in [text]. *)
Definition detect (text : string) : option string :=
  fst <$> List.find (λ item, any_in item.2 text) ACTIVITY_MAP.

Definition is_meta_field (elem : Element) : bool :=
  any_in META_FIELDS (str_lower (ET.tag elem)).

Definition candidates (root : Element) : list string :=
  map (λ elem, str_lower (default "" (ET.text elem)))
      (List.filter is_meta_field (ET.iter root)).

Fixpoint first_detect (texts : list string) : option string :=
  match texts with
  | [] => None
  | text :: rest =>
      match detect text with
      | Some act => Some act
      | None => first_detect rest
      end
  end.

Definition test_metadata (root : Element) : pyobj :=
  match first_detect (candidates root) with
  | Some act => PyStr act
  | None => PyInt 0
  end.

(** ** test_keywords (lines 193-216) *)

Definition KEYWORD_TAGS : list string := ["name"; "desc"; "cmt"; "keywords"].

(** [if el.text]: the text of an element that has a non-empty one. *)
Definition nonempty_text (el : Element) : option string :=
  match ET.text el with
  | Some s => if String.eqb s "" then None else Some s
  | None => None
  end.

(** The [if el.text: texts.append(el.text.lower())] of one element. *)
Definition lowered_text (el : Element) : option string :=
  str_lower <$> nonempty_text el.

Definition texts (root : Element) : list string :=
  flat_map (λ tag, omap lowered_text (ET.findall_any_ns tag root))
           KEYWORD_TAGS.

Definition blob (root : Element) : string := Str.join " " (texts root).

Definition test_keywords (root : Element) : pyobj :=
  match detect (blob root) with
  | Some act => PyStr act
  | None => PyInt 0
  end.

(** ** extract_points (lines 219-231) *)

(** The body of the [try] block for one track point. *)
Definition try_point (lat lon : string) (time_el : Element) : result point :=
  time_text ←! of_option AttributeError (ET.text time_el);
  t ←! of_option ValueError
         (fromisoformat (Str.replace "Z" "+00:00" time_text));
  flat ←! of_option ValueError (float_of_str lat);
  flon ←! of_option ValueError (float_of_str lon);
  Ok (flat, flon, t).

(** One turn of the loop: the points list after looking at [trkpt]. *)
Definition extract_step (points : list point) (trkpt : Element) : list point :=
  let lat := ET.attrib trkpt !! "lat" in
  let lon := ET.attrib trkpt !! "lon" in
  let time_el := ET.find_any_ns "time" trkpt in
  match lat, lon, time_el with
  | Some lat, Some lon, Some time_el =>
      if negb (String.eqb lat "") && negb (String.eqb lon "") then
        match try_point lat lon time_el with
        | Ok p => points ++ [p]
        | Raise _ => points
        end
      else points
  | _, _, _ => points
  end.

Definition extract_points (root : Element) : list point :=
  fold_left extract_step (ET.findall_any_ns "trkpt" root) [].

(** ** test_data (lines 234-283) *)

Definition has_depth (root : Element) : bool :=
  existsb (λ elem, Str.contains "depth" (str_lower (ET.tag elem)))
          (ET.iter root).

(** The loop over [range(1, len(points))], started from [total_dist]. *)
Fixpoint add_distances (total_dist : float) (points : list point) : result float :=
  match points with
  | p :: (q :: _) as rest =>
      d ←! haversine p.1.1 p.1.2 q.1.1 q.1.2;
      add_distances (total_dist +. d) rest
  | _ => Ok total_dist
  end.

(** [(points[-1][2] - points[0][2]).total_seconds()] *)
Definition elapsed (points : list point) : result float :=
  match last points, head points with
  | Some pn, Some p0 =>
      td ←! DT.sub pn.2 p0.2;
      Ok (total_seconds td)
  | _, _ => Raise IndexError
  end.

Definition avg_speed (total_dist total_time : float) : result float :=
  Fl.truediv (total_dist /. 1000) (total_time /. 3600).

(** The threshold cascade of lines 270-283. *)
Definition heuristic (avg_speed_kmh total_dist total_time : float) : pyobj :=
  if 12 <. avg_speed_kmh then PyStr "ride"
  else if (7 <. avg_speed_kmh) && (avg_speed_kmh <=. 12) then PyStr "run"
  else if (4 <. avg_speed_kmh) && (avg_speed_kmh <=. 7) then PyStr "walk"
  else if (avg_speed_kmh <=. 4) && (5000 <. total_dist) then PyStr "hike"
  else if (total_time <. 1800) && (total_dist <. 2000) then PyStr "workout"
  else PyInt 0.

Definition test_data (root : Element) : result pyobj :=
  if has_depth root then Ok (PyStr "swim")
  else
    let points := extract_points root in
    if (length points <? 10)%nat then Ok (PyInt 0)
    else
      total_time ←! elapsed points;
      total_dist ←! add_distances 0 points;
      if total_time <=. 0 then Ok (PyInt 0)
      else
        avg_speed_kmh ←! avg_speed total_dist total_time;
        Ok (heuristic avg_speed_kmh total_dist total_time).

(** ** determine_gpx_activity (lines 286-312), on the parsed tree *)

(** The fallback loop [for r in [r1, r2, r3]: if r != 0: return ...]. *)
Fixpoint fallback (rs : list pyobj) : result string :=
  match rs with
  | [] => Ok "Other"
  | r :: rest => if ne_zero r then normalize_activity r else fallback rest
  end.

(** What follows the three detector calls. *)
Definition combine (r1 r2 r3 : pyobj) : result string :=
  let results := List.filter ne_zero [r1; r2; r3] in
  match results with
  | _ :: _ =>
      let counter := Counter results in
      item ←! of_option IndexError (head (most_common_1 counter));
      let '(best, votes) := item in
      if (2 <=? votes)%nat then normalize_activity best
      else fallback [r1; r2; r3]
  | [] => fallback [r1; r2; r3]
  end.

Definition determine_gpx_activity (root : Element) : result string :=
  let r1 := test_metadata root in
  let r2 := test_keywords root in
  r3 ←! test_data root;
  combine r1 r2 r3.

End Classifier.

(** ** An executable instance of the library

    [Ref] implements the fields of [PyLib] on the inputs the examples use:
    ASCII text, short decimal literals, timestamps of the shape
    [YYYY-MM-DD?HH:MM:SS] with an optional [+HH:MM] offset, and angles of a
    few radians.  On those inputs it agrees with CPython (for the
    trigonometric functions up to the last digits). *)

Module Ref.

Definition digit (c : ascii) : option Z :=
  let n := nat_of_ascii c in
  if (Nat.leb 48 n && Nat.leb n 57)%bool then Some (Z.of_nat n - 48) else None.

(** The number written by a string of decimal digits; [None] if a byte is
    not a digit. *)
Fixpoint digits_from (acc : Z) (s : string) : option Z :=
  match s with
  | EmptyString => Some acc
  | String c s' =>
      match digit c with
      | Some d => digits_from (10 * acc + d) s'
      | None => None
      end
  end.

(** Split at the first ".". *)
Fixpoint split_dot (s : string) : string * option string :=
  match s with
  | EmptyString => (EmptyString, None)
  | String c s' =>
      if Ascii.eqb c "." then (EmptyString, Some s')
      else let '(a, b) := split_dot s' in (String c a, b)
  end.

(** [float] of an unsigned literal [ddd] or [ddd.ddd] of at most 15
    digits: the quotient of two integers that binary64 holds exactly is
    rounded once, as [float] rounds the literal. *)
Definition float_of_unsigned (s : string) : option float :=
  let '(ip, fp) := split_dot s in
  let fp := default EmptyString fp in
  let n := (String.length ip + String.length fp)%nat in
  if (Nat.ltb 0 n && Nat.leb n 15)%bool then
    m ← digits_from 0 (ip +:+ fp);
    Some (Fl.of_int m /. Fl.of_int (10 ^ Z.of_nat (String.length fp)))
  else None.

Definition float_of_str (s : string) : option float :=
  match s with
  | String "-" s' => PrimFloat.opp <$> float_of_unsigned s'
  | String "+" s' => float_of_unsigned s'
  | _ => float_of_unsigned s
  end.

Definition is_leap (y : Z) : bool :=
  (y mod 4 =? 0) && (negb (y mod 100 =? 0) || (y mod 400 =? 0)).

Definition days_in_month (y m : Z) : Z :=
  if m =? 2 then (if is_leap y then 29 else 28)
  else if (m =? 4) || (m =? 6) || (m =? 9) || (m =? 11) then 30
  else 31.

Definition days_before_year (y : Z) : Z :=
  let y' := y - 1 in y' * 365 + y' / 4 - y' / 100 + y' / 400.

Fixpoint days_before_month (y : Z) (m : nat) : Z :=
  match m with
  | O => 0
  | S O => 0
  | S m' => days_before_month y m' + days_in_month y (Z.of_nat m')
  end.

Definition num2 (a b : ascii) : option Z :=
  x ← digit a; y ← digit b; Some (10 * x + y).

Definition num4 (a b c d : ascii) : option Z :=
  x ← num2 a b; y ← num2 c d; Some (100 * x + y).

(** Microseconds since 0001-01-01T00:00:00 of valid calendar fields. *)
Definition wall (y mo d h mi s : Z) : option Z :=
  if (1 <=? y) && (1 <=? mo) && (mo <=? 12) && (1 <=? d)
     && (d <=? days_in_month y mo) && (h <=? 23) && (mi <=? 59) && (s <=? 59)
  then
    let ord := days_before_year y + days_before_month y (Z.to_nat mo) + d in
    Some (((((ord - 1) * 24 + h) * 60 + mi) * 60 + s) * 1000000)
  else None.

Definition tz_offset (rest : list ascii) : option (option Z) :=
  match rest with
  | [] => Some None
  | [sg; h1; h2; c; m1; m2] =>
      h ← num2 h1 h2; m ← num2 m1 m2;
      if Ascii.eqb c ":"%char && (h <=? 23) && (m <=? 59) then
        let us := (h * 60 + m) * 60 * 1000000 in
        if Ascii.eqb sg "+"%char then Some (Some us)
        else if Ascii.eqb sg "-"%char then Some (Some (- us))
        else None
      else None
  | _ => None
  end.

Definition fromisoformat (s : string) : option datetime :=
  match String.list_ascii_of_string s with
  | y1 :: y2 :: y3 :: y4 :: "-"%char :: o1 :: o2 :: "-"%char :: d1 :: d2 :: _ ::
    h1 :: h2 :: ":"%char :: m1 :: m2 :: ":"%char :: s1 :: s2 :: rest =>
      y ← num4 y1 y2 y3 y4; mo ← num2 o1 o2; d ← num2 d1 d2;
      h ← num2 h1 h2; mi ← num2 m1 m2; sec ← num2 s1 s2;
      w ← wall y mo d h mi sec;
      off ← tz_offset rest;
      Some (Datetime w off)
  | _ => None
  end.

Definition total_seconds (us : Z) : float :=
  Fl.of_int us /. 1000000.

(** Taylor polynomials of sine and cosine in Horner form; [k] counts the
    terms still to be folded in. *)
Fixpoint sin_horner (x2 : float) (k : nat) (i : Z) (acc : float) : float :=
  match k with
  | O => acc
  | S k' =>
      sin_horner x2 k' (i - 1)
        (1 -. x2 /. Fl.of_int ((2 * i) * (2 * i + 1)) *. acc)
  end.

Fixpoint cos_horner (x2 : float) (k : nat) (i : Z) (acc : float) : float :=
  match k with
  | O => acc
  | S k' =>
      cos_horner x2 k' (i - 1)
        (1 -. x2 /. Fl.of_int ((2 * i - 1) * (2 * i)) *. acc)
  end.

Definition is_inf (x : float) : bool :=
  PrimFloat.eqb x infinity || PrimFloat.eqb x neg_infinity.

Definition math_sin (x : float) : result float :=
  if is_inf x then Raise ValueError
  else Ok (x *. sin_horner (x *. x) 20 20 1).

Definition math_cos (x : float) : result float :=
  if is_inf x then Raise ValueError
  else Ok (cos_horner (x *. x) 20 20 1).

Definition pi : float := 0x1.921fb54442d18p+1.

(** The alternating series of the arc tangent, for a small argument. *)
Fixpoint atan_horner (t2 : float) (k : nat) (i : Z) (acc : float) : float :=
  match k with
  | O => acc
  | S k' =>
      atan_horner t2 k' (i - 1) (1 /. Fl.of_int (2 * i - 1) -. t2 *. acc)
  end.

Definition atan_small (t : float) : float :=
  t *. atan_horner (t *. t) 16 16 (1 /. 33).

(** [atan t = 2 * atan (t / (1 + sqrt (1 + t * t)))] *)
Definition halve (t : float) : float :=
  t /. (1 +. PrimFloat.sqrt (1 +. t *. t)).

Definition atan_le1 (t : float) : float :=
  4 *. atan_small (halve (halve t)).

Definition atan_pos (t : float) : float :=
  if 1 <. t then pi /. 2 -. atan_le1 (1 /. t) else atan_le1 t.

Definition atan (t : float) : float :=
  if t <. 0 then PrimFloat.opp (atan_pos (PrimFloat.opp t)) else atan_pos t.

Definition math_atan2 (y x : float) : float :=
  if 0 <. x then atan (y /. x)
  else if x <. 0 then
    (if y <. 0 then atan (y /. x) -. pi else atan (y /. x) +. pi)
  else if 0 <. y then pi /. 2
  else if y <. 0 then PrimFloat.opp (pi /. 2)
  else 0.

Fixpoint pow_nat (x : float) (n : nat) : float :=
  match n with
  | O => 1
  | S n' => x *. pow_nat x n'
  end.

Definition float_pow (x : float) (n : Z) : result float :=
  if n <? 0 then Fl.truediv 1 (pow_nat x (Z.to_nat (- n)))
  else Ok (pow_nat x (Z.to_nat n)).

End Ref.

#[export] Instance ref_lib : PyLib := {|
  str_lower := Str.ascii_lower;
  str_lower_ascii := λ s _, eq_refl;
  float_of_str := Ref.float_of_str;
  float_of_str_empty := eq_refl;
  fromisoformat := Ref.fromisoformat;
  total_seconds := Ref.total_seconds;
  math_sin := Ref.math_sin;
  math_cos := Ref.math_cos;
  math_atan2 := Ref.math_atan2;
  float_pow := Ref.float_pow
|}.

(** ** Example documents

    Trees as [ET.parse] builds them from GPX 1.1 files: every tag carries
    the GPX namespace. *)

Module Docs.

Definition GPX : string := "{http://www.topografix.com/GPX/1/1}".

Definition node (local : string) (text : option string)
    (children : list Element) : Element :=
  Elem (GPX +:+ local) ∅ text children.

Definition leaf (local text : string) : Element :=
  node local (Some text) [].

Definition trkpt (lat lon time : string) : Element :=
  Elem (GPX +:+ "trkpt") {[ "lat" := lat; "lon" := lon ]} None
       [leaf "time" time].

Definition gpx (children : list Element) : Element :=
  Elem (GPX +:+ "gpx") {[ "version" := "1.1" ]} None children.

Definition track (points : list Element) : Element :=
  node "trk" None [node "trkseg" None points].

(** Twenty points, 30 s and 0.0015 degrees of latitude apart: about
    20 km/h. *)
Definition ride_points : list Element :=
  [ trkpt "52.0000" "21.0000" "2020-01-01T10:00:00Z";
    trkpt "52.0015" "21.0000" "2020-01-01T10:00:30Z";
    trkpt "52.0030" "21.0000" "2020-01-01T10:01:00Z";
    trkpt "52.0045" "21.0000" "2020-01-01T10:01:30Z";
    trkpt "52.0060" "21.0000" "2020-01-01T10:02:00Z";
    trkpt "52.0075" "21.0000" "2020-01-01T10:02:30Z";
    trkpt "52.0090" "21.0000" "2020-01-01T10:03:00Z";
    trkpt "52.0105" "21.0000" "2020-01-01T10:03:30Z";
    trkpt "52.0120" "21.0000" "2020-01-01T10:04:00Z";
    trkpt "52.0135" "21.0000" "2020-01-01T10:04:30Z";
    trkpt "52.0150" "21.0000" "2020-01-01T10:05:00Z";
    trkpt "52.0165" "21.0000" "2020-01-01T10:05:30Z";
    trkpt "52.0180" "21.0000" "2020-01-01T10:06:00Z";
    trkpt "52.0195" "21.0000" "2020-01-01T10:06:30Z";
    trkpt "52.0210" "21.0000" "2020-01-01T10:07:00Z";
    trkpt "52.0225" "21.0000" "2020-01-01T10:07:30Z";
    trkpt "52.0240" "21.0000" "2020-01-01T10:08:00Z";
    trkpt "52.0255" "21.0000" "2020-01-01T10:08:30Z";
    trkpt "52.0270" "21.0000" "2020-01-01T10:09:00Z";
    trkpt "52.0285" "21.0000" "2020-01-01T10:09:30Z" ].

Definition ride_doc : Element := gpx [track ride_points].

(** Ten fixes at one place and one instant. *)
Definition still_doc : Element :=
  gpx [track (replicate 10 (trkpt "52.0000" "21.0000" "2020-01-01T10:00:00Z"))].

(** Three points only. *)
Definition short_doc : Element := gpx [track (take 3 ride_points)].

(** A depth reading next to a title that names another sport. *)
Definition depth_run_doc : Element :=
  gpx [ leaf "name" "Morning Run";
        track [ Elem (GPX +:+ "trkpt") {[ "lat" := "52.0"; "lon" := "21.0" ]}
                  None
                  [ leaf "time" "2020-01-01T10:00:00Z";
                    node "extensions" None [leaf "depth" "3.5"] ] ] ].

(** A depth reading and nothing else. *)
Definition depth_only_doc : Element :=
  gpx [node "extensions" None [leaf "depth" "3.5"]].

(** The word "depth" occurs in a namespace URI only. *)
Definition ns_depth_doc : Element :=
  gpx [ node "extensions" None
          [ Elem "{http://example.com/depth-sensor/v1}temp" ∅ (Some "21") [] ] ].

(** The word "sport" occurs in a namespace URI only. *)
Definition ns_sport_doc : Element :=
  gpx [ node "extensions" None
          [ Elem "{http://example.com/sport/v1}comment" ∅
              (Some "evening jog") [] ] ].

(** A time stamp with a second "Z". *)
Definition double_z_doc : Element :=
  gpx [track [trkpt "52.0000" "21.0000" "2020-01-01Z10:00:00Z"]].

(** Coordinates outside the range of latitudes and longitudes. *)
Definition far_doc : Element :=
  gpx [track [trkpt "91" "181" "2020-01-01T10:00:00Z"]].

(** A keyword split over two annotation fields. *)
Definition open_water_doc : Element :=
  gpx [ node "metadata" None [leaf "name" "Open"; leaf "desc" "water"] ].

(** Ten points of which only the first carries a UTC designator. *)
Definition mixed_zone_doc : Element :=
  gpx [track (trkpt "52.0000" "21.0000" "2020-01-01T10:00:00Z"
              :: replicate 9 (trkpt "52.0000" "21.0000" "2020-01-01T10:05:00"))].

Definition type_running_doc : Element :=
  gpx [ node "trk" None [leaf "type" "Running"] ].

Definition hike_doc : Element :=
  gpx [ node "trk" None
          [leaf "desc" "trekking the mountains"; leaf "type" "hike"] ].

(** A run by its title and by its type, with the time stamps of
    [mixed_zone_doc]. *)
Definition run_mixed_zone_doc : Element :=
  gpx [ leaf "name" "Morning run";
        node "trk" None
          [ leaf "type" "running";
            node "trkseg" None
              (trkpt "52.0000" "21.0000" "2020-01-01T10:00:00Z"
               :: replicate 9
                    (trkpt "52.0000" "21.0000" "2020-01-01T10:05:00")) ] ].

(** Ten fixes, one minute apart, that alternate between the place
    (87.5, 0) and its antipode (-87.5, 180). *)
Definition antipodal_doc : Element :=
  gpx [track [ trkpt "87.5" "0" "2020-01-01T10:00:00Z";
               trkpt "-87.5" "180" "2020-01-01T10:01:00Z";
               trkpt "87.5" "0" "2020-01-01T10:02:00Z";
               trkpt "-87.5" "180" "2020-01-01T10:03:00Z";
               trkpt "87.5" "0" "2020-01-01T10:04:00Z";
               trkpt "-87.5" "180" "2020-01-01T10:05:00Z";
               trkpt "87.5" "0" "2020-01-01T10:06:00Z";
               trkpt "-87.5" "180" "2020-01-01T10:07:00Z";
               trkpt "87.5" "0" "2020-01-01T10:08:00Z";
               trkpt "-87.5" "180" "2020-01-01T10:09:00Z" ]].

End Docs.

(** ** The behaviour the specification words, for comparison *)

(** The canonical label of a case-folded tag: the six known tags map to
    their capitalised form, everything else to "Other". *)
Definition canonical_label (tag : string) : string :=
  if String.eqb tag "ride" then "Ride"
  else if String.eqb tag "run" then "Run"
  else if String.eqb tag "swim" then "Swim"
  else if String.eqb tag "walk" then "Walk"
  else if String.eqb tag "hike" then "Hike"
  else if String.eqb tag "workout" then "Workout"
  else "Other".

(** The six internal activity tags. *)
Definition TAGS : list string :=
  ["ride"; "run"; "swim"; "walk"; "hike"; "workout"].

(** A detector verdict: the integer 0 or one of the six tags. *)
Definition is_verdict (r : pyobj) : Prop :=
  r = PyInt 0 ∨ ∃ act, In act TAGS ∧ r = PyStr act.

(** The verdicts that carry a signal, in the order of the detectors. *)
Definition signals (r1 r2 r3 : pyobj) : list pyobj :=
  List.filter ne_zero [r1; r2; r3].

(** The number of detectors whose verdict is [v]. *)
Definition votes_for (v : pyobj) (r1 r2 r3 : pyobj) : nat :=
  count_occ pyobj_eq_dec [r1; r2; r3] v.

(** "None of the above matched": no speed band of the cascade applies. *)
Definition no_band (avg_speed_kmh total_dist : float) : bool :=
  negb (12 <. avg_speed_kmh)
  && negb ((7 <. avg_speed_kmh) && (avg_speed_kmh <=. 12))
  && negb ((4 <. avg_speed_kmh) && (avg_speed_kmh <=. 7))
  && negb ((avg_speed_kmh <=. 4) && (5000 <. total_dist)).

(** The point of a track-point node whose [lat] and [lon] attributes and
    [time] child are present and parse; no point otherwise. *)
Definition point_of `{PyLib} (trkpt : Element) : option point :=
  lat ← ET.attrib trkpt !! "lat";
  lon ← ET.attrib trkpt !! "lon";
  time_el ← ET.find_any_ns "time" trkpt;
  time_text ← ET.text time_el;
  t ← fromisoformat (Str.replace "Z" "+00:00" time_text);
  flat ← float_of_str lat;
  flon ← float_of_str lon;
  Some (flat, flon, t).

(** The non-empty texts of the name, desc, cmt and keywords nodes, as
    written in the document, in the order the keyword detector reads
    them. *)
Definition annotations (root : Element) : list string :=
  flat_map (λ tag, omap nonempty_text (ET.findall_any_ns tag root))
           KEYWORD_TAGS.

(** The text the specification hands to the ISO-8601 parser: a final "Z",
    and only that one, becomes "+00:00". *)
Definition spec_utc_text (time_text : string) : string :=
  if Str.endswith "Z" time_text
  then Str.drop_last time_text +:+ "+00:00"
  else time_text.

(** * The rest of the command-line tool

    The configuration file, the log of uploaded files, the OAuth code
    pasted by the user and the fields of an upload request (lines 35-92,
    110-118, 415-445 and 509-519).  A text file is the [str] that reading
    it yields; the file system, the network and the terminal stay
    outside.  The methods of [str] work on the UTF-8 bytes: a whitespace
    character is the byte sequence that encodes it. *)

Module Text.

Definition LF : ascii := "010"%char.
Definition CR : ascii := "013"%char.

(** [s[::-1]] *)
Fixpoint rev_onto (acc s : string) : string :=
  match s with
  | EmptyString => acc
  | String c s' => rev_onto (String c acc) s'
  end.

Definition rev (s : string) : string := rev_onto "" s.

(** The code points [c] with [chr(c).isspace()]: what [str.strip()]
    removes. *)
Definition WHITESPACE : list N :=
  [ 9; 10; 11; 12; 13; 28; 29; 30; 31; 32; 133; 160; 5760;
    8192; 8193; 8194; 8195; 8196; 8197; 8198; 8199; 8200; 8201; 8202;
    8232; 8233; 8239; 8287; 12288 ]%N.

Definition byte (n : N) : ascii := ascii_of_N n.

(** The UTF-8 encoding of a code point. *)
Definition utf8 (cp : N) : string :=
  (if cp <? 128 then String (byte cp) ""
   else if cp <? 2048 then
     String (byte (192 + cp / 64)) (String (byte (128 + cp mod 64)) "")
   else if cp <? 65536 then
     String (byte (224 + cp / 4096))
       (String (byte (128 + (cp / 64) mod 64))
          (String (byte (128 + cp mod 64)) ""))
   else
     String (byte (240 + cp / 262144))
       (String (byte (128 + (cp / 4096) mod 64))
          (String (byte (128 + (cp / 64) mod 64))
             (String (byte (128 + cp mod 64)) ""))))%N.

Definition SPACES : list string := map utf8 WHITESPACE.

(** [s] without the prefix [p], if it starts with it. *)
Fixpoint strip_prefix (p s : string) : option string :=
  match p, s with
  | EmptyString, _ => Some s
  | String a p', String b s' =>
      if Ascii.eqb a b then strip_prefix p' s' else None
  | String _ _, EmptyString => None
  end.

(** [s] without the first of the prefixes [ps] it starts with. *)
Fixpoint strip_any (ps : list string) (s : string) : option string :=
  match ps with
  | [] => None
  | p :: ps' =>
      match strip_prefix p s with
      | Some rest => Some rest
      | None => strip_any ps' s
      end
  end.

(** Remove prefixes among [ps] as long as there is one; [fuel] bounds the
    number of removals. *)
Fixpoint strip_all (ps : list string) (fuel : nat) (s : string) : string :=
  match fuel with
  | O => s
  | S fuel' =>
      match strip_any ps s with
      | Some rest => strip_all ps fuel' rest
      | None => s
      end
  end.

(** [s.lstrip()], [s.rstrip()], [s.strip()] *)
Definition lstrip (s : string) : string :=
  strip_all SPACES (String.length s) s.

Definition rstrip (s : string) : string :=
  rev (strip_all (map rev SPACES) (String.length s) (rev s)).

Definition strip (s : string) : string := rstrip (lstrip s).

(** [s] starts, ends with a whitespace character. *)
Definition starts_with_space (s : string) : bool :=
  bool_decide (is_Some (strip_any SPACES s)).

Definition ends_with_space (s : string) : bool :=
  bool_decide (is_Some (strip_any (map rev SPACES) (rev s))).

(** The byte [c] is no part of a whitespace character. *)
Definition plain (c : ascii) : bool :=
  forallb (λ p, negb (Str.has_char c p)) SPACES.

(** [s.lstrip(".")] and the like: the leading [c]s removed. *)
Fixpoint lstrip_char (c : ascii) (s : string) : string :=
  match s with
  | EmptyString => EmptyString
  | String b s' => if Ascii.eqb b c then lstrip_char c s' else s
  end.

(** [s.partition(c)] without the separator: the text before and after the
    first [c]. *)
Fixpoint partition (c : ascii) (s : string) : option (string * string) :=
  match s with
  | EmptyString => None
  | String b s' =>
      if Ascii.eqb b c then Some (EmptyString, s')
      else
        match partition c s' with
        | Some (before, after) => Some (String b before, after)
        | None => None
        end
  end.

(** [s.split(c, 1)] *)
Definition split_1 (c : ascii) (s : string) : list string :=
  match partition c s with
  | Some (before, after) => [before; after]
  | None => [s]
  end.

(** [s.split(sep)] for a non-empty [sep]: [skip] bytes of a separator
    just found are still to be passed, [cur] is the piece being read. *)
Fixpoint split_go (sep : string) (skip : nat) (cur s : string) : list string :=
  match s with
  | EmptyString => [cur]
  | String c s' =>
      match skip with
      | S skip' => split_go sep skip' cur s'
      | O =>
          if Str.startswith sep s
          then cur :: split_go sep (String.length sep - 1) "" s'
          else split_go sep 0 (cur +:+ String c "") s'
      end
  end.

Definition split (sep s : string) : list string := split_go sep 0 "" s.

(** Reading in text mode: "\r\n" and "\r" become "\n". *)
Fixpoint newlines_go (after_cr : bool) (s : string) : string :=
  match s with
  | EmptyString => EmptyString
  | String c s' =>
      if Ascii.eqb c CR then String LF (newlines_go true s')
      else if Ascii.eqb c LF && after_cr then newlines_go false s'
      else String c (newlines_go false s')
  end.

Definition universal_newlines (s : string) : string := newlines_go false s.

(** The lines a text yields when iterated, each with its final "\n" (the
    last one may lack it). *)
Fixpoint lines_go (cur s : string) : list string :=
  match s with
  | EmptyString => if String.eqb cur "" then [] else [cur]
  | String c s' =>
      if Ascii.eqb c LF then (cur +:+ String LF "") :: lines_go "" s'
      else lines_go (cur +:+ String c "") s'
  end.

(** [for line in f] on a file opened for reading that holds [s]. *)
Definition readlines (s : string) : list string :=
  lines_go "" (universal_newlines s).

(** A text that is empty or ends with a newline. *)
Definition terminated (s : string) : bool :=
  String.eqb s "" || Str.endswith (String LF "") s.

(** [str(n)] for an int [n >= 0] *)
Definition of_N (n : N) : string :=
  NilZero.string_of_uint (N.to_uint n).

(** The text before and after the last [c]. *)
Fixpoint rpartition (c : ascii) (s : string) : option (string * string) :=
  match s with
  | EmptyString => None
  | String b s' =>
      match rpartition c s' with
      | Some (before, after) => Some (String b before, after)
      | None => if Ascii.eqb b c then Some (EmptyString, s') else None
      end
  end.

(** [posixpath.basename] *)
Definition basename (p : string) : string :=
  match rpartition "/" p with
  | Some (_, base) => base
  | None => p
  end.

Fixpoint all_char (c : ascii) (s : string) : bool :=
  match s with
  | EmptyString => true
  | String b s' => Ascii.eqb b c && all_char c s'
  end.

(** [posixpath.splitext]: the extension starts at the last dot of the
    last path component, unless only dots precede it there. *)
Definition splitext (p : string) : string * string :=
  let '(dir, base) :=
    match rpartition "/" p with
    | Some (dir, base) => (dir +:+ "/", base)
    | None => (EmptyString, p)
    end in
  match rpartition "." base with
  | Some (stem, ext) =>
      if all_char "." stem then (p, EmptyString)
      else (dir +:+ stem, String "." ext)
  | None => (p, EmptyString)
  end.

End Text.

(** A [dict] from [str] to [str], its items in insertion order. *)
Definition dict : Type := list (string * string).

(** [d[k] = v]: a present key keeps its place. *)
Fixpoint dict_set (k v : string) (d : dict) : dict :=
  match d with
  | [] => [(k, v)]
  | (k', v') :: d' =>
      if String.eqb k' k then (k', v) :: d' else (k', v') :: dict_set k v d'
  end.

(** [d.get(k)] *)
Fixpoint dict_get (k : string) (d : dict) : option string :=
  match d with
  | [] => None
  | (k', v') :: d' => if String.eqb k' k then Some v' else dict_get k d'
  end.

(** ** load_config, save_config (lines 35-49)

    [file] is the text that reading strava_config.txt yields, [None] if
    there is no such file.  A file whose bytes do not decode makes the
    iteration raise UnicodeDecodeError: such a file is no value of this
    type, and what follows is about files that decode. *)

(** One turn of the loop of [load_config]. *)
Definition load_line (config : dict) (line : string) : result dict :=
  if Str.contains "=" line then
    match Text.split_1 "=" (Text.strip line) with
    | [k; v] => Ok (dict_set k v config)
    | _ => Raise ValueError
    end
  else Ok config.

Fixpoint load_lines (config : dict) (lines : list string) : result dict :=
  match lines with
  | [] => Ok config
  | line :: rest =>
      config' ←! load_line config line;
      load_lines config' rest
  end.

Definition load_config (file : option string) : result dict :=
  match file with
  | None => Ok []
  | Some text => load_lines [] (Text.readlines text)
  end.

(** The text [save_config] writes. *)
Fixpoint save_config (config : dict) : string :=
  match config with
  | [] => ""
  | (k, v) :: rest =>
      k +:+ "=" +:+ v +:+ String Text.LF "" +:+ save_config rest
  end.

(** A key and a value that a line [key=value] gives back: the key has no
    "=" and no leading whitespace, the value no trailing whitespace, and
    neither has a line break. *)
Definition key_ok (k : string) : bool :=
  negb (Str.has_char "=" k) && negb (Str.has_char Text.LF k)
  && negb (Str.has_char Text.CR k) && negb (Text.starts_with_space k).

Definition value_ok (v : string) : bool :=
  negb (Str.has_char Text.LF v) && negb (Str.has_char Text.CR v)
  && negb (Text.ends_with_space v).

Definition entry_ok (item : string * string) : bool :=
  key_ok item.1 && value_ok item.2.

(** A dictionary as Python holds it (no key twice) whose items can be
    written to the configuration file and read back. *)
Definition config_ok (config : dict) : Prop :=
  NoDup (map fst config) ∧ Forall (λ item, entry_ok item = true) config.

(** ** is_already_uploaded, log_uploaded_file (lines 52-70)

    [log] is the text that reading uploaded_activities.txt yields (a log
    that decodes), [None] if there is no such file; [filesize] is what
    [os.path.getsize] returned. *)

(** [f"{filename}+{filesize}"] *)
Definition log_entry (filename : string) (filesize : N) : string :=
  filename +:+ "+" +:+ Text.of_N filesize.

Definition is_already_uploaded (log : option string) (filename : string)
    (filesize : N) : bool :=
  match log with
  | None => false
  | Some text =>
      existsb (λ line, String.eqb (Text.strip line)
                         (log_entry filename filesize))
              (Text.readlines text)
  end.

(** The log after [log_uploaded_file(filepath)]: one line appended. *)
Definition log_uploaded_file (log : option string) (filepath : string)
    (filesize : N) : option string :=
  let filename := Text.basename filepath in
  Some (default "" log +:+ log_entry filename filesize
        +:+ String Text.LF "").

(** ** The pasted authorisation code (lines 88-92 of tutorial_setup) *)

Definition oauth_code (pasted : string) : result string :=
  let code := Text.strip pasted in
  code ←! (if Str.contains "code=" code
           then of_option IndexError (Text.split "code=" code !! 1%nat)
           else Ok code);
  of_option IndexError (Text.split "&" code !! 0%nat).

(** ** The completeness test of main (lines 511-518) *)

Definition REQUIRED_KEYS : list string :=
  ["client_id"; "client_secret"; "access_token"; "refresh_token";
   "expires_at"].

(** [all(k in config and config[k] for k in required_keys)] *)
Definition has_required_keys (config : dict) : bool :=
  forallb (λ k, match dict_get k config with
                | Some v => negb (String.eqb v "")
                | None => false
                end)
          REQUIRED_KEYS.

(** ** The fields of an upload request (lines 414-445 of upload_folder) *)

Module Upload.

Record upload_fields : Type := UploadFields {
  data_type : string;
  name : string;
  description : string;
  activity_type : string
}.

Section UploadSec.

Context {L : PyLib}.

(** [ET.parse(path).getroot()], which can raise. *)
Variable parse : string → result Element.

(** [determine_gpx_activity(filepath)] with its first two lines. *)
Definition gpx_activity (filepath : string) : result string :=
  root ←! parse filepath;
  determine_gpx_activity root.

(** The second assignment of [data_type] (lines 430-445); [current] is the
    value it has before. *)
Definition folder_data_type (ext current : string) : string :=
  if String.eqb ext ".gpx" then "gpx"
  else if String.eqb ext ".tcx" then "tcx"
  else if String.eqb ext ".fit" then "fit"
  else if Str.endswith ".gz" ext then
    if Str.contains ".gpx" ext then "gpx.gz"
    else if Str.contains ".tcx" ext then "tcx.gz"
    else if Str.contains ".fit" ext then "fit.gz"
    else current
  else "gpx".

(** The [data] of the request [upload_folder] posts for [path];
    [check_token] in between does not touch these variables. *)
Definition folder_upload_fields (path : string) : result upload_fields :=
  let filename := (Text.splitext (Text.basename path)).1 in
  let description := "" in
  let ext := str_lower (Text.splitext path).2 in
  types ←! (if String.eqb ext ".gpx"
            then activity_type ←! gpx_activity path;
                 Ok ("gpx", activity_type)
            else Ok (Text.lstrip_char "." ext, "Workout"));
  let ext := str_lower (Text.splitext path).2 in
  Ok (UploadFields (folder_data_type ext types.1) filename description
        types.2).

End UploadSec.

End Upload.

(** ** Predicates of the properties *)

(** A line as iteration over a text file yields it: no carriage return,
    and no newline but at its end. *)
Definition line_ok (line : string) : Prop :=
  Str.has_char Text.CR line = false
  ∧ ∃ x, Str.has_char Text.LF x = false
         ∧ (line = x ∨ line = x +:+ String Text.LF "").

(** A decimal numeral. *)
Definition is_digit (c : ascii) : bool :=
  existsb (Ascii.eqb c) ["0"; "1"; "2"; "3"; "4"; "5"; "6"; "7"; "8"; "9"]%char.

Fixpoint all_digits (s : string) : bool :=
  match s with
  | EmptyString => true
  | String c s' => is_digit c && all_digits s'
  end.

(** A file name that can be found again in the log: no line break and no
    leading whitespace. *)
Definition name_ok (filename : string) : bool :=
  negb (Str.has_char Text.LF filename) && negb (Str.has_char Text.CR filename)
  && negb (Text.starts_with_space filename).

(** ** The configuration tutorial_setup saves (lines 110-118) *)

Definition setup_config (client_id client_secret access_token refresh_token
    expires_at : string) : dict :=
  [ ("client_id", client_id); ("client_secret", client_secret);
    ("access_token", access_token); ("refresh_token", refresh_token);
    ("expires_at", expires_at) ].

(** A track point whose time stamp carries a UTC offset. *)
Definition aware (p : point) : bool :=
  bool_decide (is_Some (utcoffset p.2)).

(** * Properties *)

(** ** Order of binary64 numbers *)

Lemma SF_le_le_not_lt (x y z : spec_float) :
  SFleb x y = true → SFleb y z = true → SFltb z x = false.
Proof.
  unfold SFleb, SFltb, SFcompare.
  destruct x as [sx|sx| |sx mx ex], y as [sy|sy| |sy my ey],
           z as [sz|sz| |sz mz ez];
    try destruct sx; try destruct sy; try destruct sz;
    try (intros; congruence).
  all: change (PosDef.Pos.compare_cont Eq) with Pos.compare.
  all: repeat match goal with
       | |- context [Z.compare ?a ?b] => destruct (Z.compare_spec a b); subst
       | |- context [Pos.compare ?a ?b] =>
           destruct (Pos.compare_spec a b); subst
       end; cbn; try congruence; try lia.
Qed.

Lemma SF_lt_not_le (x y : spec_float) :
  SFltb x y = true → SFleb y x = false.
Proof.
  unfold SFleb, SFltb, SFcompare.
  destruct x as [sx|sx| |sx mx ex], y as [sy|sy| |sy my ey];
    try destruct sx; try destruct sy; try (intros; congruence).
  all: change (PosDef.Pos.compare_cont Eq) with Pos.compare.
  all: repeat match goal with
       | |- context [Z.compare ?a ?b] => destruct (Z.compare_spec a b); subst
       | |- context [Pos.compare ?a ?b] =>
           destruct (Pos.compare_spec a b); subst
       end; cbn; try congruence; try lia.
Qed.

(** [x <= y <= z] excludes [z < x]. *)
Lemma le_le_not_lt (x y z : float) :
  x <=. y = true → y <=. z = true → z <. x = false.
Proof.
  rewrite !FloatAxioms.leb_spec, FloatAxioms.ltb_spec.
  apply SF_le_le_not_lt.
Qed.

(** [x < y] excludes [y <= x]. *)
Lemma lt_not_le (x y : float) : x <. y = true → y <=. x = false.
Proof.
  rewrite FloatAxioms.leb_spec, FloatAxioms.ltb_spec.
  apply SF_lt_not_le.
Qed.

Section Properties.

Context {L : PyLib}.

(** ** The label normaliser *)

Lemma lookup_normalized (k : string) :
  default "Other" (NORMALIZED_OUTPUT !! k) = canonical_label k.
Proof.
  unfold NORMALIZED_OUTPUT, canonical_label. cbn [list_to_map foldr uncurry fst snd].
  repeat
    (rewrite lookup_insert; case_decide as Hk;
     [ subst k; reflexivity
     | apply not_eq_sym in Hk; apply String.eqb_neq in Hk; rewrite ?Hk;
       clear Hk ]).
  rewrite lookup_empty. reflexivity.
Qed.

Lemma str_lower_empty : str_lower "" = "".
Proof. apply (str_lower_ascii ""). reflexivity. Qed.

Lemma normalize_str (s : string) :
  normalize_activity (PyStr s) = Ok (canonical_label (str_lower s)).
Proof.
  unfold normalize_activity. cbn [truthy]. rewrite negb_involutive.
  destruct (String.eqb s "") eqn:Hs.
  - apply String.eqb_eq in Hs. subst s. rewrite str_lower_empty. reflexivity.
  - rewrite lookup_normalized. reflexivity.
Qed.

(** C7: the label normaliser is total on strings, on [None] and on the
    no-signal value 0; a string goes to the canonical label of its
    case-folded form (one of the six capitalised labels for the six known
    tags and "Other" for anything else), [None] and 0 go to "Other", and no
    exception is raised. *)
Theorem normalize_activity_total :
  (∀ s, normalize_activity (PyStr s) = Ok (canonical_label (str_lower s)))
  ∧ normalize_activity PyNone = Ok "Other"
  ∧ normalize_activity (PyInt 0) = Ok "Other"
  ∧ normalize_activity (PyStr "") = Ok "Other".
Proof.
  split; [exact normalize_str |].
  repeat split; reflexivity.
Qed.

Lemma normalize_tag (act : string) :
  In act TAGS → normalize_activity (PyStr act) = Ok (canonical_label act).
Proof.
  intros Hact. rewrite normalize_str.
  cbn in Hact.
  repeat (destruct Hact as [<- | Hact];
          [ rewrite str_lower_ascii by reflexivity; reflexivity |]).
  destruct Hact.
Qed.

Lemma ne_zero_spec (v : pyobj) : ne_zero v = true ↔ v ≠ PyInt 0.
Proof.
  destruct v as [| n | s]; cbn; [split; congruence | | split; congruence].
  rewrite negb_true_iff, Z.eqb_neq. split; congruence.
Qed.

Lemma ne_zero_false (v : pyobj) : ne_zero v = false ↔ v = PyInt 0.
Proof.
  rewrite <- not_true_iff_false, ne_zero_spec.
  destruct (decide (v = PyInt 0)); tauto.
Qed.

(** ** The combiner *)

Ltac split_votes :=
  repeat match goal with
  | |- context [decide (?a = ?b)] => destruct (decide (a = b)); subst
  | H : context [pyobj_eq_dec ?a ?b] |- _ => destruct (pyobj_eq_dec a b); subst
  | |- context [pyobj_eq_dec ?a ?b] => destruct (pyobj_eq_dec a b); subst
  end.

Ltac run_counter :=
  repeat (cbn [Counter fold_left counter_add most_common_1 max_by_count head
               of_option bind fst snd Nat.ltb Nat.leb fallback];
          split_votes).

Ltac case_signals r1 r2 r3 :=
  destruct (ne_zero r1) eqn:?; destruct (ne_zero r2) eqn:?;
  destruct (ne_zero r3) eqn:?.

(** Two agreeing signals win. *)
Lemma combine_majority (r1 r2 r3 v : pyobj) :
  v ≠ PyInt 0 → (2 ≤ votes_for v r1 r2 r3)%nat →
  combine r1 r2 r3 = normalize_activity v.
Proof.
  intros Hv%ne_zero_spec. unfold votes_for. cbn [count_occ].
  split_votes; intros Hn; try (exfalso; lia);
    unfold combine; cbn [List.filter]; rewrite ?Hv;
    try (destruct (ne_zero r1) eqn:?); try (destruct (ne_zero r2) eqn:?);
    try (destruct (ne_zero r3) eqn:?);
    run_counter; try congruence; reflexivity.
Qed.

(** Without two agreeing signals the first signal wins. *)
Lemma combine_fallback (r1 r2 r3 : pyobj) :
  (∀ v, v ≠ PyInt 0 → (votes_for v r1 r2 r3 < 2)%nat) →
  combine r1 r2 r3 =
    match signals r1 r2 r3 with
    | r :: _ => normalize_activity r
    | [] => Ok "Other"
    end.
Proof.
  intros Hno.
  assert (H12 : ne_zero r1 = true → r1 ≠ r2).
  { intros H1%ne_zero_spec ->. specialize (Hno r2 H1). revert Hno.
    unfold votes_for. cbn [count_occ]. split_votes; try congruence; lia. }
  assert (H13 : ne_zero r1 = true → r1 ≠ r3).
  { intros H1%ne_zero_spec ->. specialize (Hno r3 H1). revert Hno.
    unfold votes_for. cbn [count_occ]. split_votes; try congruence; lia. }
  assert (H23 : ne_zero r2 = true → r2 ≠ r3).
  { intros H2%ne_zero_spec ->. specialize (Hno r3 H2). revert Hno.
    unfold votes_for. cbn [count_occ]. split_votes; try congruence; lia. }
  unfold combine, signals. cbn [List.filter fallback].
  case_signals r1 r2 r3; run_counter;
    try reflexivity; try (exfalso; auto; fail).
  all: try (exfalso; eapply H12; eauto; fail).
  all: try (exfalso; eapply H13; eauto; fail).
  all: try (exfalso; eapply H23; eauto; fail).
Qed.

(** ** Detector verdicts *)

Lemma detect_tag (text act : string) : detect text = Some act → In act TAGS.
Proof.
  unfold detect. destruct (List.find _ ACTIVITY_MAP) as [item|] eqn:Hfind;
    [| discriminate].
  apply find_some in Hfind as [Hin _]. intros [= <-].
  cbn in Hin. cbn.
  repeat (destruct Hin as [<- | Hin]; [tauto |]). destruct Hin.
Qed.

Lemma first_detect_tag (texts : list string) (act : string) :
  first_detect texts = Some act → In act TAGS.
Proof.
  induction texts as [| text rest IH]; cbn [first_detect]; [discriminate |].
  destruct (detect text) eqn:Hd; [| exact IH].
  intros [= <-]. eapply detect_tag, Hd.
Qed.

Lemma test_metadata_verdict (root : Element) : is_verdict (test_metadata root).
Proof.
  unfold test_metadata, is_verdict.
  destruct (first_detect _) eqn:Hd; [right | by left].
  eauto using first_detect_tag.
Qed.

Lemma test_keywords_verdict (root : Element) : is_verdict (test_keywords root).
Proof.
  unfold test_keywords, is_verdict.
  destruct (detect _) eqn:Hd; [right | by left].
  eauto using detect_tag.
Qed.

Lemma heuristic_verdict (v d t : float) : is_verdict (heuristic v d t).
Proof.
  unfold heuristic, is_verdict, TAGS.
  repeat match goal with
  | |- context [if ?b then _ else _] => destruct b
  end; cbn; eauto 10.
Qed.

Lemma test_data_verdict (root : Element) (r : pyobj) :
  test_data root = Ok r → is_verdict r.
Proof.
  unfold test_data.
  destruct (has_depth root).
  { intros [= <-]. right. exists "swim". cbn. tauto. }
  destruct (_ <? _)%nat. { intros [= <-]. by left. }
  destruct (elapsed _) as [t|]; cbn [bind]; [| discriminate].
  destruct (add_distances _ _) as [d|]; cbn [bind]; [| discriminate].
  destruct (t <=. 0). { intros [= <-]. by left. }
  destruct (avg_speed d t) as [v|]; cbn [bind]; [| discriminate].
  intros [= <-]. apply heuristic_verdict.
Qed.

(** The verdicts, listed. *)
Lemma is_verdict_cases (r : pyobj) :
  is_verdict r →
  r = PyInt 0 ∨ r = PyStr "ride" ∨ r = PyStr "run" ∨ r = PyStr "swim"
  ∨ r = PyStr "walk" ∨ r = PyStr "hike" ∨ r = PyStr "workout".
Proof.
  intros [-> | (act & Hact & ->)]; [tauto |].
  cbn in Hact. repeat (destruct Hact as [<- | Hact]; [tauto |]). destruct Hact.
Qed.

(** The combiner answers "Other" or normalises one of the signals. *)
Lemma combine_cases (r1 r2 r3 : pyobj) :
  combine r1 r2 r3 = Ok "Other"
  ∨ ∃ r, In r [r1; r2; r3] ∧ ne_zero r = true
         ∧ combine r1 r2 r3 = normalize_activity r.
Proof.
  unfold combine. cbn [List.filter fallback].
  case_signals r1 r2 r3; run_counter;
    first [ by left
          | right; eexists; split; [| split]; [ | | reflexivity];
            [cbn; tauto | done] ].
Qed.

(** The classifier never raises once the kinematic detector has returned,
    and its label is one of the seven canonical ones. *)
Lemma combine_label (r1 r2 r3 : pyobj) :
  is_verdict r1 → is_verdict r2 → is_verdict r3 →
  ∃ label, combine r1 r2 r3 = Ok label
           ∧ In label ["Ride"; "Run"; "Swim"; "Walk"; "Hike"; "Workout"; "Other"].
Proof.
  intros H1 H2 H3.
  destruct (combine_cases r1 r2 r3) as [-> | (r & Hin & Hr & ->)].
  { eexists. split; [reflexivity | cbn; tauto]. }
  assert (Hv : is_verdict r).
  { cbn in Hin. destruct Hin as [<- | [<- | [<- | []]]]; done. }
  destruct Hv as [-> | (act & Hact & ->)]; [done |].
  rewrite normalize_tag by done. eexists. split; [reflexivity |].
  cbn in Hact.
  repeat (destruct Hact as [<- | Hact]; [cbn; tauto |]). destruct Hact.
Qed.

(** C1 (as amended): whenever the kinematic detector returns a verdict
    r3, with r1 and r2 the verdicts of the metadata and of the keyword
    detector, the classifier returns the normalised label of a value that
    at least two signals agree on; when no value has two votes it returns
    the normalised label of the first signal in the order r1, r2, r3; and
    when none of the three carries a signal it returns "Other".  In every
    case the result is one of the seven canonical labels. *)
Theorem determine_gpx_activity_vote (root : Element) (r3 : pyobj) :
  test_data root = Ok r3 →
  let r1 := test_metadata root in
  let r2 := test_keywords root in
  (∀ v, v ≠ PyInt 0 → (2 ≤ votes_for v r1 r2 r3)%nat →
        determine_gpx_activity root = normalize_activity v)
  ∧ ((∀ v, v ≠ PyInt 0 → (votes_for v r1 r2 r3 < 2)%nat) →
     ∀ r, head (signals r1 r2 r3) = Some r →
          determine_gpx_activity root = normalize_activity r)
  ∧ (r1 = PyInt 0 → r2 = PyInt 0 → r3 = PyInt 0 →
     determine_gpx_activity root = Ok "Other")
  ∧ (∃ label,
       determine_gpx_activity root = Ok label
       ∧ In label ["Ride"; "Run"; "Swim"; "Walk"; "Hike"; "Workout"; "Other"]).
Proof.
  intros Hdata r1 r2.
  assert (Hdet : determine_gpx_activity root = combine r1 r2 r3).
  { unfold determine_gpx_activity. rewrite Hdata. reflexivity. }
  rewrite Hdet. split; [| split; [| split]].
  - intros v Hv Hvotes. by apply combine_majority.
  - intros Hno r Hr. rewrite combine_fallback by exact Hno.
    destruct (signals r1 r2 r3); cbn in Hr; congruence.
  - intros -> -> ->. reflexivity.
  - apply combine_label;
      eauto using test_metadata_verdict, test_keywords_verdict,
                  test_data_verdict.
Qed.

(** ** The depth override *)

Lemma test_data_depth (root : Element) :
  has_depth root = true → test_data root = Ok (PyStr "swim").
Proof. unfold test_data. by intros ->. Qed.

Lemma combine_with_swim (r1 r2 : pyobj) :
  is_verdict r1 → is_verdict r2 →
  combine r1 r2 (PyStr "swim") = Ok "Swim"
  ↔ r1 = PyStr "swim" ∨ r2 = PyStr "swim" ∨ (r1 = PyInt 0 ∧ r2 = PyInt 0).
Proof.
  intros H1%is_verdict_cases H2%is_verdict_cases.
  destruct H1 as [-> | [-> | [-> | [-> | [-> | [-> | ->]]]]]];
  destruct H2 as [-> | [-> | [-> | [-> | [-> | [-> | ->]]]]]];
  unfold combine; cbn [List.filter ne_zero Z.eqb negb]; run_counter;
  try congruence;
  rewrite ?normalize_tag by (cbn; tauto); cbn [canonical_label String.eqb];
  (split; [intros [=]; tauto | intros [[=] | [[=] | [[=] [=]]]]; reflexivity])
  || (split; [intros _; tauto | reflexivity]).
Qed.

(** C3 (as amended): a node whose case-folded tag contains "depth" makes
    the kinematic detector answer swim whatever the trajectory is; the
    classifier then returns "Swim" exactly when the metadata or the keyword
    detector also answers swim, or both of them are silent. *)
Theorem depth_swim_override (root : Element) :
  has_depth root = true →
  test_data root = Ok (PyStr "swim")
  ∧ (determine_gpx_activity root = Ok "Swim"
     ↔ test_metadata root = PyStr "swim" ∨ test_keywords root = PyStr "swim"
       ∨ (test_metadata root = PyInt 0 ∧ test_keywords root = PyInt 0)).
Proof.
  intros Hdepth%test_data_depth. split; [exact Hdepth |].
  unfold determine_gpx_activity. rewrite Hdepth. cbn [bind].
  apply combine_with_swim;
    auto using test_metadata_verdict, test_keywords_verdict.
Qed.

(** ** Too little data *)





(** ** The speed bands *)

(** C2 (as amended): for a document without a depth node whose track has
    at least 10 points and a positive elapsed time, once total_distance,
    the sum of the haversine distances of consecutive points, and
    avg_speed_kmh = (total_distance/1000) / (total_time/3600) have been
    computed (the distance and the division can raise), the kinematic
    detector returns ride above 12 km/h, run in (7, 12], walk in (4, 7],
    hike at 4 or below with more than 5000 m; when none of these applies
    it returns workout under 1800 s and under 2000 m, and the no-signal
    value 0 otherwise. *)
Theorem test_data_bands (root : Element) (total_time total_dist v : float) :
  has_depth root = false →
  (10 ≤ length (extract_points root))%nat →
  elapsed (extract_points root) = Ok total_time →
  0 <. total_time = true →
  add_distances 0 (extract_points root) = Ok total_dist →
  avg_speed total_dist total_time = Ok v →
  v = (total_dist /. 1000) /. (total_time /. 3600)
  ∧ (12 <. v = true → test_data root = Ok (PyStr "ride"))
  ∧ (7 <. v = true → v <=. 12 = true → test_data root = Ok (PyStr "run"))
  ∧ (4 <. v = true → v <=. 7 = true → test_data root = Ok (PyStr "walk"))
  ∧ (v <=. 4 = true → 5000 <. total_dist = true →
     test_data root = Ok (PyStr "hike"))
  ∧ (no_band v total_dist = true →
     total_time <. 1800 = true → total_dist <. 2000 = true →
     test_data root = Ok (PyStr "workout"))
  ∧ (no_band v total_dist = true →
     (total_time <. 1800) && (total_dist <. 2000) = false →
     test_data root = Ok (PyInt 0)).
Proof.
  intros Hdepth Hlen%Nat.ltb_ge Ht Hpos%lt_not_le Hd Hv.
  assert (Hrun : test_data root = Ok (heuristic v total_dist total_time)).
  { unfold test_data. rewrite Hdepth, Hlen, Ht, Hd. cbn [bind].
    rewrite Hpos, Hv. reflexivity. }
  rewrite Hrun. unfold heuristic, no_band.
  split; [| repeat split].
  - revert Hv. unfold avg_speed, Fl.truediv.
    destruct (PrimFloat.eqb _ _); congruence.
  - by intros ->.
  - intros H7 H12. rewrite (le_le_not_lt v 12 12), H7, H12 by done. done.
  - intros H4 H7.
    rewrite (le_le_not_lt v 7 12), (le_le_not_lt v 7 7), H4, H7 by done.
    done.
  - intros H4 H5.
    rewrite (le_le_not_lt v 4 12), (le_le_not_lt v 4 7),
            (le_le_not_lt v 4 4), H4, H5 by done.
    done.
  - intros Hno H18 H20.
    repeat (apply andb_true_iff in Hno as [Hno ?]).
    repeat match goal with
    | H : negb _ = true |- _ => apply negb_true_iff in H; rewrite H
    end.
    by rewrite H18, H20.
  - intros Hno Hnw.
    repeat (apply andb_true_iff in Hno as [Hno ?]).
    repeat match goal with
    | H : negb _ = true |- _ => apply negb_true_iff in H; rewrite H
    end.
    by rewrite Hnw.
Qed.

(** ** The track parser *)

Lemma extract_step_point_of (points : list point) (trkpt : Element) :
  extract_step points trkpt = points ++ option_list (point_of trkpt).
Proof.
  unfold extract_step, point_of, try_point.
  destruct (ET.attrib trkpt !! "lat") as [lat|]; cbn;
    [| by rewrite app_nil_r].
  destruct (ET.attrib trkpt !! "lon") as [lon|]; cbn;
    [| by rewrite app_nil_r].
  destruct (ET.find_any_ns "time" trkpt) as [time_el|]; cbn;
    [| by rewrite app_nil_r].
  destruct (String.eqb_spec lat "") as [-> | _]; cbn.
  { rewrite float_of_str_empty.
    destruct (ET.text time_el); cbn; [| by rewrite app_nil_r].
    destruct (fromisoformat _); cbn; by rewrite app_nil_r. }
  destruct (String.eqb_spec lon "") as [-> | _]; cbn.
  { rewrite float_of_str_empty.
    destruct (ET.text time_el); cbn; [| by rewrite app_nil_r].
    destruct (fromisoformat _); cbn; [| by rewrite app_nil_r].
    destruct (float_of_str lat); cbn; by rewrite app_nil_r. }
  destruct (ET.text time_el) as [time_text|]; cbn; [| by rewrite app_nil_r].
  destruct (fromisoformat _); cbn; [| by rewrite app_nil_r].
  destruct (float_of_str lat); cbn; [| by rewrite app_nil_r].
  destruct (float_of_str lon); cbn; [done | by rewrite app_nil_r].
Qed.

Lemma fold_extract_step (trkpts : list Element) (points : list point) :
  fold_left extract_step trkpts points = points ++ omap point_of trkpts.
Proof.
  revert points. induction trkpts as [| trkpt rest IH]; intros points; cbn.
  - by rewrite app_nil_r.
  - rewrite IH, extract_step_point_of, <- app_assoc.
    by destruct (point_of trkpt).
Qed.

(** The parser keeps, in document order, the points of the track-point
    nodes that have one. *)
Lemma extract_points_omap (root : Element) :
  extract_points root = omap point_of (ET.findall_any_ns "trkpt" root).
Proof. unfold extract_points. by rewrite fold_extract_step. Qed.

Lemma point_of_Some (trkpt : Element) (p : point) :
  point_of trkpt = Some p ↔
  ∃ lat lon time_el time_text,
    ET.attrib trkpt !! "lat" = Some lat
    ∧ ET.attrib trkpt !! "lon" = Some lon
    ∧ ET.find_any_ns "time" trkpt = Some time_el
    ∧ ET.text time_el = Some time_text
    ∧ fromisoformat (Str.replace "Z" "+00:00" time_text) = Some p.2
    ∧ float_of_str lat = Some p.1.1
    ∧ float_of_str lon = Some p.1.2.
Proof.
  unfold point_of. split.
  - destruct (ET.attrib trkpt !! "lat") as [lat|]; cbn; [| done].
    destruct (ET.attrib trkpt !! "lon") as [lon|]; cbn; [| done].
    destruct (ET.find_any_ns "time" trkpt) as [time_el|]; cbn; [| done].
    destruct (ET.text time_el) as [time_text|] eqn:Htext; cbn; [| done].
    destruct (fromisoformat _) as [t|] eqn:Ht; cbn; [| done].
    destruct (float_of_str lat) as [flat|] eqn:Hflat; cbn; [| done].
    destruct (float_of_str lon) as [flon|] eqn:Hflon; cbn; [| done].
    intros [= <-]. exists lat, lon, time_el, time_text. by repeat split.
  - intros (lat & lon & time_el & time_text & -> & -> & ->
            & Htext & Ht & Hflat & Hflon). cbn.
    rewrite Htext. cbn. rewrite Ht, Hflat, Hflon. cbn.
    by destruct p as [[? ?] ?].
Qed.

Lemma in_extract_points (root : Element) (p : point) :
  In p (extract_points root) ↔
  ∃ trkpt, In trkpt (ET.findall_any_ns "trkpt" root) ∧ point_of trkpt = Some p.
Proof.
  rewrite extract_points_omap, <- list_elem_of_In, list_elem_of_omap.
  by setoid_rewrite list_elem_of_In.
Qed.

(** Replacing every "Z" rewrites a single final "Z" and nothing else. *)
Lemma replace_final_Z (body : string) :
  Str.has_char "Z" body = false →
  Str.replace "Z" "+00:00" (body +:+ "Z") = body +:+ "+00:00".
Proof.
  induction body as [| c body IH]; [done |].
  cbn [Str.has_char]. intros [Hc Hbody]%orb_false_iff.
  change (String c body +:+ "Z") with (String c (body +:+ "Z")).
  change (String c body +:+ "+00:00") with (String c (body +:+ "+00:00")).
  cbn [Str.replace]. rewrite Hc. by rewrite IH.
Qed.

(** C5 (as amended): the parser returns, in document order and without
    raising, the points of the track-point nodes whose lat and lon
    attributes and child time node are present and parse, and omits every
    other node; the time text is handed to the ISO-8601 parser
    with every "Z" in it replaced by "+00:00", which for a text whose only
    "Z" is the last character replaces that suffix. *)
Theorem extract_points_skips (root : Element) :
  extract_points root = omap point_of (ET.findall_any_ns "trkpt" root)
  ∧ (∀ p, In p (extract_points root) ↔
       ∃ trkpt lat lon time_el time_text,
         In trkpt (ET.findall_any_ns "trkpt" root)
         ∧ ET.attrib trkpt !! "lat" = Some lat
         ∧ ET.attrib trkpt !! "lon" = Some lon
         ∧ ET.find_any_ns "time" trkpt = Some time_el
         ∧ ET.text time_el = Some time_text
         ∧ fromisoformat (Str.replace "Z" "+00:00" time_text) = Some p.2
         ∧ float_of_str lat = Some p.1.1
         ∧ float_of_str lon = Some p.1.2)
  ∧ (∀ body, Str.has_char "Z" body = false →
       Str.replace "Z" "+00:00" (body +:+ "Z") = body +:+ "+00:00").
Proof.
  split; [apply extract_points_omap |]. split; [| apply replace_final_Z].
  intros p. rewrite in_extract_points. split.
  - intros (trkpt & Hin & Hp). apply point_of_Some in Hp.
    destruct Hp as (lat & lon & time_el & time_text & Hp).
    by exists trkpt, lat, lon, time_el, time_text.
  - intros (trkpt & lat & lon & time_el & time_text & Hin & Hp).
    exists trkpt. split; [done |]. apply point_of_Some.
    by exists lat, lon, time_el, time_text.
Qed.


(** ** Tag matching *)

Lemma endswith_has_char (c : ascii) (k t : string) :
  Str.endswith k t = true → Str.has_char c k = true → Str.has_char c t = true.
Proof.
  induction t as [| a t IH]; cbn [Str.endswith Str.has_char].
  - rewrite orb_false_r. by intros ->%String.eqb_eq.
  - intros [->%String.eqb_eq | Hend]%orb_true_iff Hc; [done |].
    rewrite (IH Hend Hc). apply orb_true_r.
Qed.

(** The [{*}name] test looks at the local name only. *)
Lemma match_any_ns_local (name el_tag : string) :
  Str.has_char "}" name = false →
  ET.match_any_ns name el_tag = String.eqb (ET.local_name el_tag) name.
Proof.
  intros Hname. unfold ET.match_any_ns.
  change ("}" +:+ name) with (String "}" name).
  assert (Hk : Str.has_char "}" (String "}" name) = true) by done.
  induction el_tag as [| c rest IH].
  - cbn [Str.endswith ET.local_name].
    change (String.eqb (String "}" name) "") with false.
    by rewrite !orb_false_r.
  - cbn [Str.endswith ET.local_name].
    destruct (Str.has_char "}" rest) eqn:Hrest.
    + assert (String.eqb (String c rest) name = false) as ->.
      { apply String.eqb_neq. intros <-. cbn in Hname.
        rewrite Hrest, orb_true_r in Hname. done. }
      assert (String.eqb (String "}" name) (String c rest) = false) as ->.
      { apply String.eqb_neq. intros [= <- <-]. congruence. }
      assert (String.eqb rest name = false) as Hne.
      { apply String.eqb_neq. intros <-. congruence. }
      rewrite Hne in IH. exact IH.
    + assert (Str.endswith (String "}" name) rest = false) as ->.
      { apply not_true_iff_false. intros Hend.
        pose proof (endswith_has_char _ _ _ Hend Hk). congruence. }
      rewrite !orb_false_r.
      destruct (Ascii.eqb c "}") eqn:Hc.
      * apply Ascii.eqb_eq in Hc. subst c.
        assert (String.eqb (String "}" rest) name = false) as ->.
        { apply String.eqb_neq. intros <-. cbn in Hname. done. }
        cbn [orb]. change (String.eqb (String "}" name) (String "}" rest))
          with (String.eqb name rest).
        apply String.eqb_sym.
      * assert (String.eqb (String "}" name) (String c rest) = false) as ->.
        { apply String.eqb_neq. intros [= <- <-].
          by rewrite Ascii.eqb_refl in Hc. }
        apply orb_false_r.
Qed.

Lemma in_findall_any_ns (name : string) (root elem : Element) :
  Str.has_char "}" name = false →
  In elem (ET.findall_any_ns name root) ↔
  In elem (ET.descendants root) ∧ ET.local_name (ET.tag elem) = name.
Proof.
  intros Hname. unfold ET.findall_any_ns.
  rewrite filter_In, match_any_ns_local by done.
  by rewrite String.eqb_eq.
Qed.

Lemma find_any_ns_local (name : string) (parent child : Element) :
  Str.has_char "}" name = false →
  ET.find_any_ns name parent = Some child →
  In child (ET.children parent) ∧ ET.local_name (ET.tag child) = name.
Proof.
  intros Hname [Hin Hm]%find_some.
  rewrite match_any_ns_local in Hm by done.
  by apply String.eqb_eq in Hm.
Qed.

Lemma has_depth_iff (root : Element) :
  has_depth root = true ↔
  ∃ elem, In elem (ET.iter root)
          ∧ Str.contains "depth" (str_lower (ET.tag elem)) = true.
Proof. unfold has_depth. apply existsb_exists. Qed.

Lemma in_candidates (root : Element) (text : string) :
  In text (candidates root) ↔
  ∃ elem, In elem (ET.iter root)
          ∧ (∃ k, In k META_FIELDS
                  ∧ Str.contains k (str_lower (ET.tag elem)) = true)
          ∧ text = str_lower (default "" (ET.text elem)).
Proof.
  unfold candidates. rewrite in_map_iff. split.
  - intros (elem & <- & [Hin Hm]%filter_In). exists elem.
    split; [done |]. split; [| done].
    unfold is_meta_field, any_in in Hm. by apply existsb_exists in Hm.
  - intros (elem & Hin & Hm & ->). exists elem. split; [done |].
    apply filter_In. split; [done |].
    unfold is_meta_field, any_in. by apply existsb_exists.
Qed.

(** [find] takes the first child whose local name is [name]. *)
Lemma find_any_ns_find (name : string) (parent : Element) :
  Str.has_char "}" name = false →
  ET.find_any_ns name parent
  = List.find (λ child, String.eqb (ET.local_name (ET.tag child)) name)
              (ET.children parent).
Proof.
  intros Hname. unfold ET.find_any_ns.
  induction (ET.children parent) as [| child rest IH]; [done |].
  cbn [List.find]. by rewrite match_any_ns_local, IH.
Qed.

(** A text without [c] starts [a] followed by [c] only if it starts
    [a]. *)
Lemma startswith_before (c : ascii) (k a b : string) :
  Str.has_char c k = false →
  Str.startswith k (a +:+ String c b) = Str.startswith k a.
Proof.
  revert a. induction k as [| x k IH]; intros a Hk; [by destruct a |].
  cbn [Str.has_char] in Hk. apply orb_false_iff in Hk as [Hx Hk].
  destruct a as [| y a].
  - change ("" +:+ String c b) with (String c b).
    cbn [Str.startswith]. by rewrite Hx.
  - change (String y a +:+ String c b) with (String y (a +:+ String c b)).
    cbn [Str.startswith]. by rewrite IH.
Qed.

(** A text without [c] occurs around a [c] exactly when it occurs before
    it or behind it. *)
Lemma contains_around (c : ascii) (k a b : string) :
  Str.has_char c k = false →
  Str.contains k (a +:+ String c b) = Str.contains k a || Str.contains k b.
Proof.
  intros Hk. induction a as [| y a IH].
  - change ("" +:+ String c b) with (String c b).
    cbn [Str.contains].
    rewrite <- (startswith_before c k "" b Hk).
    change ("" +:+ String c b) with (String c b).
    by rewrite orb_false_r.
  - change (String y a +:+ String c b) with (String y (a +:+ String c b)).
    cbn [Str.contains].
    rewrite IH, orb_assoc. f_equal. f_equal.
    apply (startswith_before c k (String y a) b Hk).
Qed.

Lemma qualified_is_ascii (uri local : string) :
  Str.is_ascii uri = true → Str.is_ascii local = true →
  Str.is_ascii ("{" +:+ uri +:+ "}" +:+ local) = true.
Proof.
  intros Huri Hlocal.
  change ("{" +:+ uri +:+ "}" +:+ local)
    with (String "{" (uri +:+ String "}" local)).
  cbn [Str.is_ascii]. change (Nat.ltb (nat_of_ascii "{") 128) with true.
  cbn [andb]. induction uri as [| c uri IH].
  - change ("" +:+ String "}" local) with (String "}" local).
    cbn [Str.is_ascii]. by rewrite Hlocal.
  - change (String c uri +:+ String "}" local)
      with (String c (uri +:+ String "}" local)).
    cbn [Str.is_ascii] in Huri |- * . apply andb_true_iff in Huri as [-> Huri].
    by apply IH.
Qed.

Lemma qualified_ascii_lower (uri local : string) :
  Str.ascii_lower ("{" +:+ uri +:+ "}" +:+ local)
  = "{" +:+ Str.ascii_lower uri +:+ "}" +:+ Str.ascii_lower local.
Proof.
  change ("{" +:+ uri +:+ "}" +:+ local)
    with (String "{" (uri +:+ String "}" local)).
  change ("{" +:+ Str.ascii_lower uri +:+ "}" +:+ Str.ascii_lower local)
    with (String "{" (Str.ascii_lower uri
                      +:+ String "}" (Str.ascii_lower local))).
  cbn [Str.ascii_lower]. f_equal. induction uri as [| c uri IH].
  - done.
  - change (String c uri +:+ String "}" local)
      with (String c (uri +:+ String "}" local)).
    cbn [Str.ascii_lower]. by rewrite IH.
Qed.

(** The substring test on the case-folded qualified tag of an ASCII name
    is the test on the namespace URI or on the local name. *)
Lemma qualified_tag_contains (k uri local : string) :
  Str.has_char "{" k = false → Str.has_char "}" k = false →
  Str.is_ascii uri = true → Str.is_ascii local = true →
  Str.contains k (str_lower ("{" +:+ uri +:+ "}" +:+ local))
  = Str.contains k (str_lower uri) || Str.contains k (str_lower local).
Proof.
  intros Hopen Hclose Huri Hlocal.
  rewrite !str_lower_ascii by auto using qualified_is_ascii.
  rewrite qualified_ascii_lower.
  change ("{" +:+ Str.ascii_lower uri +:+ "}" +:+ Str.ascii_lower local)
    with ("" +:+ String "{" (Str.ascii_lower uri
                             +:+ String "}" (Str.ascii_lower local))).
  rewrite (contains_around "{") by done.
  rewrite (contains_around "}") by done.
  destruct k as [| x k]; [by destruct (Str.ascii_lower uri) |].
  done.
Qed.

(** C6 (as amended): the searches for track points, for their time child
    and for the name/desc/cmt/keywords nodes compare the local tag name
    only, whatever the namespace: [findall] returns the descendants whose
    local name is the one searched, and [find] the first child whose local
    name is.  The depth check and the metadata-marker check are substring
    tests on the whole case-folded qualified tag: on an ASCII tag
    [{uri}local] they succeed exactly when the word occurs in the
    namespace URI or in the local name. *)
Theorem tag_matching (root : Element) :
  (∀ name elem, Str.has_char "}" name = false →
     In elem (ET.findall_any_ns name root) ↔
     In elem (ET.descendants root) ∧ ET.local_name (ET.tag elem) = name)
  ∧ (∀ name parent, Str.has_char "}" name = false →
       ET.find_any_ns name parent
       = List.find (λ child, String.eqb (ET.local_name (ET.tag child)) name)
                   (ET.children parent))
  ∧ (has_depth root = true ↔
     ∃ elem, In elem (ET.iter root)
             ∧ Str.contains "depth" (str_lower (ET.tag elem)) = true)
  ∧ (∀ text, In text (candidates root) ↔
       ∃ elem, In elem (ET.iter root)
               ∧ (∃ k, In k META_FIELDS
                       ∧ Str.contains k (str_lower (ET.tag elem)) = true)
               ∧ text = str_lower (default "" (ET.text elem)))
  ∧ (∀ k uri local, In k ("depth" :: META_FIELDS) →
       Str.is_ascii uri = true → Str.is_ascii local = true →
       Str.contains k (str_lower ("{" +:+ uri +:+ "}" +:+ local))
       = Str.contains k (str_lower uri) || Str.contains k (str_lower local)).
Proof.
  split; [intros name elem; apply in_findall_any_ns |].
  split; [intros name parent; apply find_any_ns_find |].
  split; [apply has_depth_iff |]. split; [apply in_candidates |].
  intros k uri local Hk. apply qualified_tag_contains.
  - cbn in Hk. by repeat (destruct Hk as [<- | Hk]; [done |]).
  - cbn in Hk. by repeat (destruct Hk as [<- | Hk]; [done |]).
Qed.

(** ** Keywords across annotation fields *)

Lemma texts_annotations (root : Element) :
  texts root = map str_lower (annotations root).
Proof.
  unfold texts, annotations, lowered_text.
  induction KEYWORD_TAGS as [| tag tags IH]; [done |].
  cbn [flat_map]. rewrite map_app, IH. f_equal.
  induction (ET.findall_any_ns tag root) as [| el els IHels]; [done |].
  cbn [omap list_omap]. destruct (nonempty_text el); cbn; by rewrite IHels.
Qed.

(** C10: the keyword detector matches on the space-joined blob, so a
    keyword of several words can be found across two annotation fields:
    there is a document none of whose annotation texts, case-folded,
    contains any keyword of any activity, and the detector still answers
    swim, for "open water". *)
Theorem keyword_spans_fields :
  ∃ root,
    (∀ text, In text (annotations root) → detect (str_lower text) = None)
    ∧ Str.contains "open water" (blob root) = true
    ∧ test_keywords root = PyStr "swim".
Proof.
  exists Docs.open_water_doc.
  assert (Hraw : annotations Docs.open_water_doc = ["Open"; "water"])
    by (by vm_compute).
  unfold test_keywords, blob. rewrite texts_annotations, Hraw.
  cbn [map]. rewrite !str_lower_ascii by reflexivity.
  split; [| split].
  - intros text [<- | [<- | []]];
      rewrite str_lower_ascii by reflexivity; by vm_compute.
  - by vm_compute.
  - by vm_compute.
Qed.

End Properties.

(** * The theorems on the example documents

    From here on the library is [ref_lib]. *)

Lemma determine_gpx_activity_vote_witness :
  test_data Docs.hike_doc = Ok (PyInt 0)
  ∧ determine_gpx_activity Docs.hike_doc = normalize_activity (PyStr "hike").
Proof.
  assert (H3 : test_data Docs.hike_doc = Ok (PyInt 0)) by (by vm_compute).
  split; [exact H3 |].
  destruct (determine_gpx_activity_vote Docs.hike_doc (PyInt 0) H3)
    as (Hmajority & _).
  apply Hmajority.
  - discriminate.
  - vm_compute. lia.
Defined.

Lemma test_data_bands_witness :
  ∃ total_time total_dist v,
    has_depth Docs.ride_doc = false
    ∧ (10 ≤ length (extract_points Docs.ride_doc))%nat
    ∧ elapsed (extract_points Docs.ride_doc) = Ok total_time
    ∧ 0 <. total_time = true
    ∧ add_distances 0 (extract_points Docs.ride_doc) = Ok total_dist
    ∧ avg_speed total_dist total_time = Ok v
    ∧ 12 <. v = true
    ∧ test_data Docs.ride_doc = Ok (PyStr "ride").
Proof.
  set (points := extract_points Docs.ride_doc).
  set (or_zero := λ r : result float,
                    match r with Ok x => x | Raise _ => 0%float end).
  set (total_time := or_zero (elapsed points)).
  set (total_dist := or_zero (add_distances 0 points)).
  set (v := or_zero (avg_speed total_dist total_time)).
  assert (H1 : has_depth Docs.ride_doc = false) by (by vm_compute).
  assert (H2 : (10 ≤ length points)%nat) by (vm_compute; lia).
  assert (H3 : elapsed points = Ok total_time) by (by vm_compute).
  assert (H4 : 0 <. total_time = true) by (by vm_compute).
  assert (H5 : add_distances 0 points = Ok total_dist) by (by vm_compute).
  assert (H6 : avg_speed total_dist total_time = Ok v) by (by vm_compute).
  assert (H7 : 12 <. v = true) by (by vm_compute).
  exists total_time, total_dist, v. repeat (split; [assumption |]).
  by apply (test_data_bands Docs.ride_doc total_time total_dist v).
Defined.

(** The metadata detector and the keyword detector agree on run, and the
    classifier returns no label: the kinematic detector raises on the time
    stamps, one with and one without a UTC offset. *)
Lemma vote_raises_counterexample :
  test_metadata Docs.run_mixed_zone_doc = PyStr "run"
  ∧ test_keywords Docs.run_mixed_zone_doc = PyStr "run"
  ∧ determine_gpx_activity Docs.run_mixed_zone_doc = Raise TypeError.
Proof. repeat split; by vm_compute. Qed.

(** No depth node, ten points and 540 s of elapsed time, and no band: the
    distance between two neighbours raises. *)
Lemma antipodal_track_counterexample :
  has_depth Docs.antipodal_doc = false
  ∧ length (extract_points Docs.antipodal_doc) = 10%nat
  ∧ elapsed (extract_points Docs.antipodal_doc) = Ok 540%float
  ∧ 0 <. 540 = true
  ∧ test_data Docs.antipodal_doc = Raise ValueError.
Proof. repeat split; by vm_compute. Qed.

(** C8: between the valid points (87.5, 0) and (-87.5, 180) the haversine
    term [a] is rounded to a number above 1, [math.sqrt(1 - a)] raises,
    and no distance is returned. *)
Theorem haversine_antipodal_raises :
  haversine 87.5 0 (-87.5) 180 = Raise ValueError.
Proof. by vm_compute. Qed.

Lemma depth_swim_override_witness :
  has_depth Docs.depth_only_doc = true
  ∧ test_data Docs.depth_only_doc = Ok (PyStr "swim")
  ∧ determine_gpx_activity Docs.depth_only_doc = Ok "Swim".
Proof.
  assert (H : has_depth Docs.depth_only_doc = true) by (by vm_compute).
  destruct (depth_swim_override Docs.depth_only_doc H) as [Hswim Hiff].
  split; [exact H |]. split; [exact Hswim |].
  apply Hiff. right. right. by vm_compute.
Defined.

(** A depth reading does not make the classifier answer "Swim" when the
    title says "Morning Run": the keyword detector answers run, the
    kinematic detector swim, and the fallback takes the first of the two. *)
Lemma depth_override_counterexample :
  existsb (λ elem, String.eqb (ET.local_name (ET.tag elem)) "depth")
          (ET.iter Docs.depth_run_doc) = true
  ∧ test_metadata Docs.depth_run_doc = PyInt 0
  ∧ test_keywords Docs.depth_run_doc = PyStr "run"
  ∧ test_data Docs.depth_run_doc = Ok (PyStr "swim")
  ∧ determine_gpx_activity Docs.depth_run_doc = Ok "Run".
Proof. repeat split; by vm_compute. Qed.



Lemma extract_points_skips_witness :
  Str.has_char "Z" "2020-01-01T10:00:00" = false
  ∧ Str.replace "Z" "+00:00" "2020-01-01T10:00:00Z"
    = "2020-01-01T10:00:00+00:00"
  ∧ extract_points Docs.far_doc
    = omap point_of (ET.findall_any_ns "trkpt" Docs.far_doc).
Proof.
  destruct (extract_points_skips Docs.far_doc) as (Hpoints & _ & Hz).
  assert (H : Str.has_char "Z" "2020-01-01T10:00:00" = false)
    by (by vm_compute).
  split; [exact H |]. split; [exact (Hz _ H) | exact Hpoints].
Defined.

(** A time text with a second "Z": with only the final "Z" rewritten it is
    an ISO-8601 instant at UTC, but the parser rewrites both and drops the
    point. *)
Lemma double_z_counterexample :
  Str.endswith "Z" "2020-01-01Z10:00:00Z" = true
  ∧ spec_utc_text "2020-01-01Z10:00:00Z" = "2020-01-01Z10:00:00+00:00"
  ∧ fromisoformat (spec_utc_text "2020-01-01Z10:00:00Z")
    = Some (Datetime 63713469600000000 (Some 0))
  ∧ Str.replace "Z" "+00:00" "2020-01-01Z10:00:00Z"
    = "2020-01-01+00:0010:00:00+00:00"
  ∧ fromisoformat (Str.replace "Z" "+00:00" "2020-01-01Z10:00:00Z") = None
  ∧ extract_points Docs.double_z_doc = [].
Proof. repeat split; by vm_compute. Qed.

Lemma tag_matching_witness :
  Str.has_char "}" "trkpt" = false
  ∧ ∀ elem, In elem (ET.findall_any_ns "trkpt" Docs.far_doc) ↔
            In elem (ET.descendants Docs.far_doc)
            ∧ ET.local_name (ET.tag elem) = "trkpt".
Proof.
  assert (H : Str.has_char "}" "trkpt" = false) by (by vm_compute).
  split; [exact H |]. intros elem.
  destruct (tag_matching Docs.far_doc) as (Hfindall & _).
  exact (Hfindall "trkpt" elem H).
Defined.

(** No local tag name contains "depth" or a metadata marker, yet the
    depth check and the metadata check fire on the namespace URI. *)
Lemma namespace_uri_counterexample :
  forallb (λ elem, negb (Str.contains "depth"
                           (str_lower (ET.local_name (ET.tag elem)))))
          (ET.iter Docs.ns_depth_doc) = true
  ∧ test_data Docs.ns_depth_doc = Ok (PyStr "swim")
  ∧ forallb (λ elem, negb (any_in META_FIELDS
                             (str_lower (ET.local_name (ET.tag elem)))))
            (ET.iter Docs.ns_sport_doc) = true
  ∧ test_metadata Docs.ns_sport_doc = PyStr "run".
Proof. repeat split; by vm_compute. Qed.



(** ** Library functions on small inputs *)

Example match_any_ns_examples :
  ET.match_any_ns "trkpt" "trkpt" = true
  ∧ ET.match_any_ns "trkpt" "{http://www.topografix.com/GPX/1/1}trkpt" = true
  ∧ ET.match_any_ns "trkpt" "{http://www.topografix.com/GPX/1/1}xtrkpt" = false
  ∧ ET.match_any_ns "time" "{urn:time}stamp" = false
  ∧ ET.local_name "{urn:time}stamp" = "stamp"
  ∧ ET.local_name "stamp" = "stamp".
Proof. repeat split; reflexivity. Qed.

Example contains_examples :
  Str.contains "run" "morning run" = true
  ∧ Str.contains "" "" = true
  ∧ Str.contains "open water" "open  water" = false
  ∧ Str.replace "Z" "+00:00" "2020-01-01T10:00:00Z" = "2020-01-01T10:00:00+00:00"
  ∧ Str.join " " ["open"; "water"] = "open water"
  ∧ Str.join " " [] = "".
Proof. repeat split; reflexivity. Qed.

Example most_common_examples :
  most_common_1 (Counter [PyStr "run"; PyStr "swim"]) = [(PyStr "run", 1%nat)]
  ∧ most_common_1 (Counter [PyStr "a"; PyStr "b"; PyStr "b"])
    = [(PyStr "b", 2%nat)]
  ∧ most_common_1 (Counter []) = [].
Proof. repeat split; reflexivity. Qed.

Example datetime_examples :
  fromisoformat "2020-01-01T10:09:30+00:00"
    = Some (Datetime 63713470170000000 (Some 0))
  ∧ fromisoformat "2020-01-01T10:00:00" = Some (Datetime 63713469600000000 None)
  ∧ DT.sub (Datetime 63713470170000000 (Some 0))
           (Datetime 63713469600000000 (Some 0)) = Ok 570000000
  ∧ DT.sub (Datetime 63713470170000000 (Some 0))
           (Datetime 63713469600000000 None) = Raise TypeError
  ∧ total_seconds 570000000 = 570%float.
Proof. repeat split; by vm_compute. Qed.

(** ** The examples of the specification *)

Example ride_track_is_ride :
  test_metadata Docs.ride_doc = PyInt 0
  ∧ test_keywords Docs.ride_doc = PyInt 0
  ∧ determine_gpx_activity Docs.ride_doc = Ok "Ride".
Proof. repeat split; by vm_compute. Qed.

Example type_running_is_run :
  test_keywords Docs.type_running_doc = PyInt 0
  ∧ test_data Docs.type_running_doc = Ok (PyInt 0)
  ∧ determine_gpx_activity Docs.type_running_doc = Ok "Run".
Proof. repeat split; by vm_compute. Qed.

Example hike_by_majority :
  test_metadata Docs.hike_doc = PyStr "hike"
  ∧ test_keywords Docs.hike_doc = PyStr "hike"
  ∧ test_data Docs.hike_doc = Ok (PyInt 0)
  ∧ determine_gpx_activity Docs.hike_doc = Ok "Hike".
Proof. repeat split; by vm_compute. Qed.

(** The kinematic detector is not total: subtracting a naive time stamp
    from an aware one raises, and the classifier raises with it. *)
Example mixed_zones_raise :
  length (extract_points Docs.mixed_zone_doc) = 10%nat
  ∧ test_data Docs.mixed_zone_doc = Raise TypeError
  ∧ determine_gpx_activity Docs.mixed_zone_doc = Raise TypeError.
Proof. repeat split; by vm_compute. Qed.

Example full_disagreement_takes_first :
  combine (PyStr "ride") (PyStr "run") (PyStr "walk") = Ok "Ride".
Proof. by vm_compute. Qed.

(** * Properties of the rest of the tool *)

(** ** Strings *)

Lemma app_cons (c : ascii) (a b : string) :
  String c a +:+ b = String c (a +:+ b).
Proof. reflexivity. Qed.

Lemma app_empty_l (s : string) : "" +:+ s = s.
Proof. reflexivity. Qed.

Lemma app_empty_r (s : string) : s +:+ "" = s.
Proof.
  induction s as [| c s IH]; [done |]. by rewrite app_cons, IH.
Qed.

Lemma app_assoc_s (a b c : string) : (a +:+ b) +:+ c = a +:+ (b +:+ c).
Proof.
  induction a as [| x a IH]; [done |]. by rewrite !app_cons, IH.
Qed.

Lemma length_app_s (a b : string) :
  String.length (a +:+ b) = (String.length a + String.length b)%nat.
Proof.
  induction a as [| x a IH]; [done |]. rewrite app_cons. cbn. by rewrite IH.
Qed.

Lemma has_char_app (c : ascii) (a b : string) :
  Str.has_char c (a +:+ b) = Str.has_char c a || Str.has_char c b.
Proof.
  induction a as [| x a IH]; [done |].
  rewrite app_cons. cbn. by rewrite IH, orb_assoc.
Qed.


Lemma rev_onto_app (acc s : string) :
  Text.rev_onto acc s = Text.rev s +:+ acc.
Proof.
  unfold Text.rev. revert acc.
  induction s as [| c s IH]; intros acc; cbn; [done |].
  rewrite IH, (IH (String c "")), app_assoc_s. by rewrite app_cons.
Qed.

Lemma rev_cons (c : ascii) (s : string) :
  Text.rev (String c s) = Text.rev s +:+ String c "".
Proof. unfold Text.rev at 1. cbn. apply rev_onto_app. Qed.

Lemma rev_app (a b : string) :
  Text.rev (a +:+ b) = Text.rev b +:+ Text.rev a.
Proof.
  induction a as [| x a IH].
  - by rewrite app_empty_l, app_empty_r.
  - by rewrite app_cons, !rev_cons, IH, app_assoc_s.
Qed.

Lemma rev_involutive (s : string) : Text.rev (Text.rev s) = s.
Proof.
  induction s as [| c s IH]; [done |].
  by rewrite rev_cons, rev_app, IH.
Qed.

Lemma rev_length (s : string) : String.length (Text.rev s) = String.length s.
Proof.
  induction s as [| c s IH]; [done |].
  rewrite rev_cons, length_app_s, IH. cbn. lia.
Qed.

Lemma has_char_rev (c : ascii) (s : string) :
  Str.has_char c (Text.rev s) = Str.has_char c s.
Proof.
  induction s as [| x s IH]; [done |].
  rewrite rev_cons, has_char_app, IH. cbn.
  by rewrite orb_false_r, orb_comm.
Qed.

(** ** Prefix stripping *)

Lemma strip_prefix_Some (p s rest : string) :
  Text.strip_prefix p s = Some rest ↔ s = p +:+ rest.
Proof.
  revert s. induction p as [| a p IH]; intros s; cbn.
  - rewrite app_empty_l. split; congruence.
  - rewrite app_cons. destruct s as [| b s]; [split; discriminate |].
    destruct (Ascii.eqb_spec a b) as [-> | Hne].
    + rewrite IH. split; congruence.
    + split; [discriminate | congruence].
Qed.

Lemma strip_any_Some (ps : list string) (s rest : string) :
  Text.strip_any ps s = Some rest → ∃ p, In p ps ∧ s = p +:+ rest.
Proof.
  induction ps as [| p ps IH]; cbn; [discriminate |].
  destruct (Text.strip_prefix p s) as [r |] eqn:Hp.
  - intros [= <-]. exists p. split; [by left |]. by apply strip_prefix_Some.
  - intros (q & Hq & Hs)%IH. exists q. split; [by right | done].
Qed.

Lemma strip_any_None (ps : list string) (s : string) :
  Text.strip_any ps s = None ↔ ∀ p, In p ps → Text.strip_prefix p s = None.
Proof.
  induction ps as [| p ps IH]; cbn.
  - split; [intros _ p [] | done].
  - destruct (Text.strip_prefix p s) eqn:Hp.
    + split; [discriminate |]. intros H. specialize (H p (or_introl eq_refl)).
      congruence.
    + rewrite IH. split.
      * intros H q [<- | Hq]; auto.
      * intros H q Hq. apply H. by right.
Qed.

(** What [strip_all] returns is what is left of [s] after a prefix, and
    that prefix is made of bytes of the stripped prefixes. *)
Lemma strip_all_suffix (ps : list string) (fuel : nat) (s : string) :
  ∃ l, s = l +:+ Text.strip_all ps fuel s
       ∧ ∀ c, (∀ p, In p ps → Str.has_char c p = false) →
              Str.has_char c l = false.
Proof.
  revert s. induction fuel as [| fuel IH]; intros s; cbn.
  - by exists "".
  - destruct (Text.strip_any ps s) as [rest |] eqn:Hany; [| by exists ""].
    apply strip_any_Some in Hany as (p & Hp & ->).
    destruct (IH rest) as (l & Hl & Hc). exists (p +:+ l). split.
    + by rewrite app_assoc_s, <- Hl.
    + intros c Hps. by rewrite has_char_app, (Hps p Hp), (Hc c Hps).
Qed.

Lemma strip_all_fixed (ps : list string) (fuel : nat) (s : string) :
  Text.strip_any ps s = None → Text.strip_all ps fuel s = s.
Proof. destruct fuel; cbn; [done |]. by intros ->. Qed.

(** With non-empty prefixes and fuel for every byte, nothing is left to
    strip. *)
Lemma strip_all_done (ps : list string) (fuel : nat) (s : string) :
  (∀ p, In p ps → p ≠ "") → (String.length s ≤ fuel)%nat →
  Text.strip_any ps (Text.strip_all ps fuel s) = None.
Proof.
  intros Hne. revert s. induction fuel as [| fuel IH]; intros s Hlen; cbn.
  - destruct s; [| cbn in Hlen; lia].
    apply strip_any_None. intros p Hp. specialize (Hne p Hp).
    destruct p; [done | done].
  - destruct (Text.strip_any ps s) as [rest |] eqn:Hany; [| done].
    apply IH. apply strip_any_Some in Hany as (p & Hp & ->).
    specialize (Hne p Hp). rewrite length_app_s in Hlen.
    destruct p; [done |]. cbn in Hlen. lia.
Qed.

(** A prefix free of [c] that fits before a [c] fits before it. *)
Lemma strip_prefix_before (c : ascii) (p k w rest : string) :
  Str.has_char c p = false →
  Text.strip_prefix p (k +:+ String c w) = Some rest →
  ∃ rest', Text.strip_prefix p k = Some rest'.
Proof.
  revert k. induction p as [| a p IH]; intros k Hc; cbn; [eauto |].
  cbn in Hc. apply orb_false_iff in Hc as [Hac Hp].
  destruct k as [| b k]; [rewrite app_empty_l | rewrite app_cons]; cbn.
  - by rewrite Hac.
  - destruct (Ascii.eqb a b); [| discriminate]. by apply IH.
Qed.

Lemma strip_prefix_app (p a b rest : string) :
  Text.strip_prefix p a = Some rest →
  Text.strip_prefix p (a +:+ b) = Some (rest +:+ b).
Proof.
  rewrite !strip_prefix_Some. intros ->. by rewrite app_assoc_s.
Qed.

(** ** Whitespace *)

Lemma spaces_nonempty (p : string) : In p Text.SPACES → p ≠ "".
Proof.
  intros Hp ->. vm_compute in Hp.
  repeat (destruct Hp as [Hp | Hp]; [discriminate |]). done.
Qed.

Lemma rev_spaces_nonempty (p : string) :
  In p (map Text.rev Text.SPACES) → p ≠ "".
Proof.
  intros (q & <- & Hq)%in_map_iff Hrev.
  apply (spaces_nonempty q Hq).
  by rewrite <- (rev_involutive q), Hrev.
Qed.

Lemma plain_spaces (c : ascii) (p : string) :
  Text.plain c = true → In p Text.SPACES → Str.has_char c p = false.
Proof.
  unfold Text.plain. rewrite forallb_forall. intros H Hp.
  by apply negb_true_iff, H.
Qed.

Lemma plain_rev_spaces (c : ascii) (p : string) :
  Text.plain c = true → In p (map Text.rev Text.SPACES) →
  Str.has_char c p = false.
Proof.
  intros Hc (q & <- & Hq)%in_map_iff.
  rewrite has_char_rev. by apply plain_spaces.
Qed.

Lemma starts_with_space_false (s : string) :
  Text.starts_with_space s = false ↔ Text.strip_any Text.SPACES s = None.
Proof.
  unfold Text.starts_with_space. rewrite bool_decide_eq_false.
  destruct (Text.strip_any _ s); split; try done.
  intros H. destruct H. by eexists.
Qed.

Lemma ends_with_space_false (s : string) :
  Text.ends_with_space s = false ↔
  Text.strip_any (map Text.rev Text.SPACES) (Text.rev s) = None.
Proof.
  unfold Text.ends_with_space. rewrite bool_decide_eq_false.
  destruct (Text.strip_any _ (Text.rev s)); split; try done.
  intros H. destruct H. by eexists.
Qed.

Lemma lstrip_clean (s : string) :
  Text.starts_with_space (Text.lstrip s) = false.
Proof.
  apply starts_with_space_false, strip_all_done;
    [apply spaces_nonempty | done].
Qed.

Lemma rstrip_clean (s : string) :
  Text.ends_with_space (Text.rstrip s) = false.
Proof.
  apply ends_with_space_false. unfold Text.rstrip.
  rewrite rev_involutive. apply strip_all_done;
    [apply rev_spaces_nonempty | by rewrite rev_length].
Qed.

Lemma lstrip_id (s : string) :
  Text.starts_with_space s = false → Text.lstrip s = s.
Proof. intros H%starts_with_space_false. by apply strip_all_fixed. Qed.

Lemma rstrip_id (s : string) :
  Text.ends_with_space s = false → Text.rstrip s = s.
Proof.
  intros H%ends_with_space_false. unfold Text.rstrip.
  by rewrite strip_all_fixed, rev_involutive.
Qed.

Lemma lstrip_suffix (s : string) :
  ∃ l, s = l +:+ Text.lstrip s
       ∧ ∀ c, Text.plain c = true → Str.has_char c l = false.
Proof.
  destruct (strip_all_suffix Text.SPACES (String.length s) s) as (l & Hl & Hc).
  exists l. split; [done |]. intros c Hplain. apply Hc.
  intros p. by apply plain_spaces.
Qed.

Lemma rstrip_prefix (s : string) :
  ∃ r, s = Text.rstrip s +:+ r
       ∧ ∀ c, Text.plain c = true → Str.has_char c r = false.
Proof.
  destruct (strip_all_suffix (map Text.rev Text.SPACES)
              (String.length s) (Text.rev s)) as (l & Hl & Hc).
  exists (Text.rev l). split.
  - unfold Text.rstrip. by rewrite <- rev_app, <- Hl, rev_involutive.
  - intros c Hplain. rewrite has_char_rev. apply Hc.
    intros p. by apply plain_rev_spaces.
Qed.

(** A string that starts with a whitespace character still does when
    text is added behind it. *)
Lemma starts_with_space_app (a b : string) :
  Text.starts_with_space (a +:+ b) = false →
  Text.starts_with_space a = false.
Proof.
  rewrite !starts_with_space_false, !strip_any_None.
  intros H p Hp. specialize (H p Hp).
  destruct (Text.strip_prefix p a) eqn:Ha; [| done].
  by rewrite (strip_prefix_app _ _ b _ Ha) in H.
Qed.

Lemma ends_with_space_app (a b : string) :
  Text.ends_with_space (a +:+ b) = false →
  Text.ends_with_space b = false.
Proof.
  rewrite !ends_with_space_false, rev_app, !strip_any_None.
  intros H p Hp. specialize (H p Hp).
  destruct (Text.strip_prefix p (Text.rev b)) eqn:Hb; [| done].
  by rewrite (strip_prefix_app _ _ (Text.rev a) _ Hb) in H.
Qed.

(** A plain byte behind a string adds no leading whitespace, and a plain
    byte in front of a string adds no trailing whitespace. *)
Lemma starts_with_space_plain (c : ascii) (k w : string) :
  Text.plain c = true → Text.starts_with_space k = false →
  Text.starts_with_space (k +:+ String c w) = false.
Proof.
  rewrite !starts_with_space_false, !strip_any_None.
  intros Hc H p Hp.
  destruct (Text.strip_prefix p (k +:+ String c w)) eqn:Hk; [| done].
  apply strip_prefix_before in Hk as [rest' Hk]; [| by apply plain_spaces].
  by rewrite (H p Hp) in Hk.
Qed.

Lemma ends_with_space_plain (c : ascii) (u v : string) :
  Text.plain c = true → Text.ends_with_space v = false →
  Text.ends_with_space (u +:+ String c v) = false.
Proof.
  rewrite !ends_with_space_false, rev_app, rev_cons, app_assoc_s, app_cons,
    app_empty_l, !strip_any_None.
  intros Hc H p Hp.
  destruct (Text.strip_prefix p _) eqn:Hk; [| done].
  apply strip_prefix_before in Hk as [rest' Hk];
    [| by apply plain_rev_spaces].
  by rewrite (H p Hp) in Hk.
Qed.

(** The text between the stripped ends. *)
Lemma strip_middle (s : string) :
  ∃ l r, s = l +:+ Text.strip s +:+ r
         ∧ (∀ c, Text.plain c = true →
                 Str.has_char c l = false ∧ Str.has_char c r = false).
Proof.
  destruct (lstrip_suffix s) as (l & Hl & Hcl).
  destruct (rstrip_prefix (Text.lstrip s)) as (r & Hr & Hcr).
  exists l, r. split; [| by auto].
  unfold Text.strip. by rewrite <- Hr.
Qed.

Lemma strip_clean (s : string) :
  Text.starts_with_space (Text.strip s) = false
  ∧ Text.ends_with_space (Text.strip s) = false.
Proof.
  split; [| apply rstrip_clean].
  destruct (rstrip_prefix (Text.lstrip s)) as (r & Hr & _).
  apply (starts_with_space_app _ r). unfold Text.strip.
  rewrite <- Hr. apply lstrip_clean.
Qed.

Lemma strip_id (s : string) :
  Text.starts_with_space s = false → Text.ends_with_space s = false →
  Text.strip s = s.
Proof.
  intros Hl Hr. unfold Text.strip. by rewrite (lstrip_id s Hl), rstrip_id.
Qed.

(** Stripping keeps the plain bytes. *)
Lemma has_char_strip (c : ascii) (s : string) :
  Text.plain c = true →
  Str.has_char c (Text.strip s) = Str.has_char c s.
Proof.
  intros Hc. destruct (strip_middle s) as (l & r & Hs & Hlr).
  destruct (Hlr c Hc) as [Hl Hr].
  rewrite Hs at 2. by rewrite !has_char_app, Hl, Hr, orb_false_r.
Qed.

(** A final newline is stripped. *)
Lemma rstrip_newline (s : string) :
  Text.rstrip (s +:+ String Text.LF "") = Text.rstrip s.
Proof.
  unfold Text.rstrip.
  rewrite rev_app, length_app_s, Nat.add_comm. reflexivity.
Qed.

(** ** Partition and lines *)

Lemma contains_char (c : ascii) (s : string) :
  Str.contains (String c "") s = Str.has_char c s.
Proof.
  induction s as [| b s IH]; [done |].
  cbn [Str.contains Str.startswith Str.has_char].
  by rewrite IH, andb_true_r, (Ascii.eqb_sym c b).
Qed.

Lemma partition_Some (c : ascii) (s a b : string) :
  Text.partition c s = Some (a, b) ↔
  s = a +:+ String c b ∧ Str.has_char c a = false.
Proof.
  revert a. induction s as [| x s IH]; intros a; cbn.
  - split; [discriminate |]. intros [H _]. destruct a; discriminate.
  - destruct (Ascii.eqb_spec x c) as [-> | Hne].
    + split.
      * intros [= <- <-]. done.
      * intros [Hs Ha]. destruct a as [| y a].
        { rewrite app_empty_l in Hs. congruence. }
        rewrite app_cons in Hs. injection Hs as <- _. cbn in Ha.
        by rewrite Ascii.eqb_refl in Ha.
    + apply Ascii.eqb_neq in Hne.
      destruct (Text.partition c s) as [[a' b'] |] eqn:Hp.
      * split.
        -- intros [= <- <-]. rewrite app_cons. cbn. rewrite Hne.
           destruct (proj1 (IH a') eq_refl) as [-> ->]. done.
        -- intros [Hs Ha]. destruct a as [| y a].
           { rewrite app_empty_l in Hs. injection Hs as -> _.
             by rewrite Ascii.eqb_refl in Hne. }
           rewrite app_cons in Hs. injection Hs as <- Hs. cbn in Ha.
           apply orb_false_iff in Ha as [_ Ha].
           assert (Some (a', b') = Some (a, b)) as [= -> ->]; [| done].
           by apply IH.
      * split; [discriminate |]. intros [Hs Ha]. destruct a as [| y a].
        { rewrite app_empty_l in Hs. injection Hs as -> _.
          by rewrite Ascii.eqb_refl in Hne. }
        rewrite app_cons in Hs. injection Hs as <- Hs. cbn in Ha.
        apply orb_false_iff in Ha as [_ Ha].
        assert (None = Some (a, b)) by (by apply IH).
        congruence.
Qed.

Lemma partition_None (c : ascii) (s : string) :
  Text.partition c s = None ↔ Str.has_char c s = false.
Proof.
  induction s as [| x s IH]; cbn; [done |].
  destruct (Ascii.eqb x c); cbn; [done |].
  destruct (Text.partition c s) as [[a b] |]; [| done].
  split; [discriminate |]. intros H. apply IH in H. discriminate.
Qed.

Lemma newlines_go_id (s : string) :
  Str.has_char Text.CR s = false → Text.newlines_go false s = s.
Proof.
  induction s as [| c s IH]; cbn; [done |].
  intros [Hc Hs]%orb_false_iff. rewrite Hc, andb_false_r, IH; done.
Qed.

Lemma newlines_go_no_CR (b : bool) (s : string) :
  Str.has_char Text.CR (Text.newlines_go b s) = false.
Proof.
  revert b. induction s as [| c s IH]; intros b; cbn; [done |].
  destruct (Ascii.eqb c Text.CR) eqn:Hc; cbn; [apply IH |].
  destruct (Ascii.eqb c Text.LF && b); cbn; [apply IH |].
  by rewrite Hc, IH.
Qed.

(** Newline translation brings in no character but the newline. *)
Lemma newlines_go_char (c : ascii) (b : bool) (s : string) :
  c ≠ Text.LF → c ≠ Text.CR → Str.has_char c s = false →
  Str.has_char c (Text.newlines_go b s) = false.
Proof.
  intros Hlf Hcr. revert b. induction s as [| x s IH]; intros b; [done |].
  cbn [Str.has_char Text.newlines_go]. intros [Hx Hs]%orb_false_iff.
  destruct (Ascii.eqb x Text.CR).
  - cbn [Str.has_char]. rewrite IH by done.
    by rewrite (proj2 (Ascii.eqb_neq _ _) (not_eq_sym Hlf)).
  - destruct (Ascii.eqb x Text.LF && b); [by apply IH |].
    cbn [Str.has_char]. by rewrite Hx, IH.
Qed.

Lemma lines_go_line (cur a rest : string) :
  Str.has_char Text.LF a = false →
  Text.lines_go cur (a +:+ String Text.LF rest)
  = (cur +:+ a +:+ String Text.LF "") :: Text.lines_go "" rest.
Proof.
  revert cur. induction a as [| c a IH]; intros cur Ha.
  - rewrite !app_empty_l. cbn. done.
  - rewrite app_cons. cbn in Ha. apply orb_false_iff in Ha as [Hc Ha].
    cbn [Text.lines_go]. rewrite Hc, IH by done.
    by rewrite !app_assoc_s, !app_cons, !app_empty_l.
Qed.

Lemma endswith_app (k a : string) : Str.endswith k (a +:+ k) = true.
Proof.
  induction a as [| c a IH].
  - rewrite app_empty_l.
    destruct k; cbn [Str.endswith]; by rewrite String.eqb_refl.
  - rewrite app_cons. cbn [Str.endswith]. by rewrite IH, orb_true_r.
Qed.

Lemma endswith_one (a c : ascii) :
  Str.endswith (String a "") (String c "") = Ascii.eqb a c.
Proof.
  cbn [Str.endswith String.eqb]. by destruct (Ascii.eqb a c).
Qed.

Lemma endswith_cons (k c d : ascii) (s : string) :
  Str.endswith (String k "") (String c (String d s))
  = Str.endswith (String k "") (String d s).
Proof.
  cbn [Str.endswith String.eqb]. by destruct (Ascii.eqb k c).
Qed.

(** Reading a text that ends with a newline and then more text yields the
    lines of the first followed by the lines of the second. *)
Lemma lines_newlines_app (B A cur : string) (b : bool) :
  Str.endswith (String Text.LF "") A = true → (b = true → cur = "") →
  Text.lines_go cur (Text.newlines_go b (A +:+ B))
  = Text.lines_go cur (Text.newlines_go b A)
    ++ Text.lines_go "" (Text.newlines_go false B).
Proof.
  revert cur b. induction A as [| c A IH]; intros cur b Hend Hb; [done |].
  rewrite app_cons.
  destruct A as [| d A].
  - rewrite endswith_one in Hend. apply Ascii.eqb_eq in Hend as <-.
    rewrite app_empty_l. cbn [Text.newlines_go].
    change (Ascii.eqb Text.LF Text.CR) with false. cbn [andb].
    rewrite Ascii.eqb_refl. destruct b; cbn [andb].
    + rewrite (Hb eq_refl). done.
    + cbn [Text.lines_go]. by rewrite Ascii.eqb_refl.
  - rewrite endswith_cons in Hend.
    cbn [Text.newlines_go].
    destruct (Ascii.eqb c Text.CR) eqn:Hcr.
    { cbn [Text.lines_go]. rewrite Ascii.eqb_refl.
      by rewrite IH. }
    destruct (Ascii.eqb c Text.LF && b) eqn:Hlf.
    { apply andb_true_iff in Hlf as [_ ->]. rewrite (Hb eq_refl).
      by rewrite IH. }
    cbn [Text.lines_go].
    destruct (Ascii.eqb c Text.LF); by rewrite IH.
Qed.

Lemma readlines_app (A B : string) :
  Text.terminated A = true →
  Text.readlines (A +:+ B) = Text.readlines A ++ Text.readlines B.
Proof.
  unfold Text.terminated, Text.readlines, Text.universal_newlines.
  intros [->%String.eqb_eq | Hend]%orb_true_iff; [done |].
  by apply lines_newlines_app.
Qed.

(** ** The dictionary *)

Lemma dict_get_set (k v : string) (d : dict) :
  dict_get k (dict_set k v d) = Some v.
Proof.
  induction d as [| [k' v'] d IH]; cbn.
  - by rewrite String.eqb_refl.
  - destruct (String.eqb k' k) eqn:Hk; cbn; by rewrite Hk.
Qed.

Lemma dict_get_set_ne (k k' v : string) (d : dict) :
  k' ≠ k → dict_get k' (dict_set k v d) = dict_get k' d.
Proof.
  intros Hne. induction d as [| [k0 v0] d IH]; cbn.
  - apply not_eq_sym, String.eqb_neq in Hne. by rewrite Hne.
  - destruct (String.eqb_spec k0 k) as [-> | Hk]; cbn.
    + apply not_eq_sym, String.eqb_neq in Hne. by rewrite Hne.
    + by rewrite IH.
Qed.

Lemma dict_set_fresh (k v : string) (d : dict) :
  k ∉ map fst d → dict_set k v d = d ++ [(k, v)].
Proof.
  induction d as [| [k' v'] d IH]; cbn; [done |].
  intros Hk. destruct (String.eqb_spec k' k) as [-> | Hne].
  - exfalso. apply Hk. left.
  - rewrite IH; [done |]. intros Hin. apply Hk. by right.
Qed.

Lemma dict_set_keys (k v : string) (d : dict) :
  map fst (dict_set k v d)
  = if bool_decide (k ∈ map fst d) then map fst d else map fst d ++ [k].
Proof.
  induction d as [| [k' v'] d IH]; cbn.
  - rewrite bool_decide_eq_false_2; [done |]. apply not_elem_of_nil.
  - destruct (String.eqb_spec k' k) as [-> | Hne]; cbn.
    + rewrite bool_decide_eq_true_2; [done | left].
    + rewrite IH. destruct (bool_decide (k ∈ map fst d)) eqn:Hin.
      * apply bool_decide_eq_true in Hin.
        rewrite bool_decide_eq_true_2; [done | by right].
      * apply bool_decide_eq_false in Hin.
        rewrite bool_decide_eq_false_2; [done |].
        intros [| ]%elem_of_cons; congruence.
Qed.

Lemma dict_set_ok (k v : string) (d : dict) :
  entry_ok (k, v) = true → config_ok d → config_ok (dict_set k v d).
Proof.
  intros Hkv [Hnd Hall]. split.
  - rewrite dict_set_keys. case_bool_decide as Hin; [done |].
    apply NoDup_app. split; [done |]. split; [| apply NoDup_singleton].
    intros x Hx ->%list_elem_of_singleton. done.
  - clear Hnd. induction d as [| [k' v'] d IH]; cbn.
    + by constructor.
    + apply Forall_cons in Hall as [Hh Ht].
      destruct (String.eqb_spec k' k) as [-> | Hne].
      * by constructor.
      * constructor; [done | by apply IH].
Qed.

(** ** Lines of a file *)

Lemma lines_go_char (c : ascii) (s cur : string) :
  Str.has_char c cur = false → Str.has_char c s = false →
  Forall (λ line, Str.has_char c line = false) (Text.lines_go cur s).
Proof.
  revert cur. induction s as [| x s IH]; intros cur Hcur Hs.
  - cbn. destruct (String.eqb cur ""); constructor; done.
  - cbn in Hs. apply orb_false_iff in Hs as [Hx Hs]. cbn [Text.lines_go].
    destruct (Ascii.eqb_spec x Text.LF) as [-> | Hne].
    + constructor.
      * rewrite has_char_app, Hcur. cbn [Str.has_char orb]. by rewrite Hx.
      * by apply IH.
    + apply IH; [| done]. rewrite has_char_app, Hcur.
      cbn [Str.has_char orb]. by rewrite Hx.
Qed.

Lemma lines_go_shape (s cur : string) :
  Str.has_char Text.LF cur = false →
  Forall (λ line, ∃ x, Str.has_char Text.LF x = false
                       ∧ (line = x ∨ line = x +:+ String Text.LF ""))
         (Text.lines_go cur s).
Proof.
  revert cur. induction s as [| c s IH]; intros cur Hcur.
  - cbn. destruct (String.eqb cur ""); constructor; eauto.
  - cbn [Text.lines_go]. destruct (Ascii.eqb c Text.LF) eqn:Hc.
    + constructor; [eauto | by apply IH].
    + apply IH. rewrite has_char_app, Hcur. cbn [Str.has_char orb].
      by rewrite Hc.
Qed.

Lemma readlines_ok (text : string) : Forall line_ok (Text.readlines text).
Proof.
  unfold Text.readlines, Text.universal_newlines, line_ok.
  apply Forall_and. split.
  - apply lines_go_char; [done | apply newlines_go_no_CR].
  - by apply lines_go_shape.
Qed.

(** A character that occurs once, at the end, ends every part that
    holds it. *)
Lemma last_char_unique (c : ascii) (x l m r : string) :
  x +:+ String c "" = l +:+ m +:+ r →
  Str.has_char c x = false → Str.has_char c m = true →
  ∃ m', m = m' +:+ String c "".
Proof.
  intros Heq Hx Hm.
  apply (f_equal Text.rev) in Heq.
  rewrite !rev_app in Heq.
  change (Text.rev (String c "")) with (String c "") in Heq.
  rewrite app_cons, app_empty_l in Heq.
  destruct (Text.rev r) as [| d r'] eqn:Hr.
  - rewrite app_empty_l in Heq.
    destruct (Text.rev m) as [| e m'] eqn:Hrev.
    + rewrite <- (rev_involutive m), Hrev in Hm. done.
    + rewrite app_cons in Heq. injection Heq as <- _.
      exists (Text.rev m').
      by rewrite <- (rev_involutive m), Hrev, rev_cons.
  - rewrite app_cons in Heq. injection Heq as <- Heq.
    apply (f_equal (Str.has_char c)) in Heq.
    rewrite !has_char_app, !has_char_rev, Hx, Hm in Heq.
    by rewrite orb_true_r in Heq.
Qed.

Lemma ends_with_space_LF (s : string) :
  Text.ends_with_space (s +:+ String Text.LF "") = true.
Proof.
  unfold Text.ends_with_space. rewrite rev_app.
  change (Text.rev (String Text.LF "")) with (String Text.LF "").
  rewrite app_cons, app_empty_l. by vm_compute.
Qed.

Lemma plain_eq : Text.plain "=" = true.
Proof. by vm_compute. Qed.

Lemma strip_line_chars (line : string) :
  line_ok line →
  Str.has_char Text.CR (Text.strip line) = false
  ∧ Str.has_char Text.LF (Text.strip line) = false.
Proof.
  intros [Hcr (x & Hx & Hline)].
  destruct (strip_middle line) as (l & r & Heq & _).
  split.
  - rewrite Heq, !has_char_app in Hcr.
    apply orb_false_iff in Hcr as [_ Hcr].
    by apply orb_false_iff in Hcr as [Hcr _].
  - destruct Hline as [-> | ->].
    + rewrite Heq, !has_char_app in Hx.
      apply orb_false_iff in Hx as [_ Hx].
      by apply orb_false_iff in Hx as [Hx _].
    + destruct (Str.has_char Text.LF (Text.strip (x +:+ String Text.LF "")))
        eqn:Hlf; [| done].
      destruct (last_char_unique _ _ _ _ _ Heq Hx Hlf) as (m' & Hm').
      pose proof (strip_clean (x +:+ String Text.LF "")) as [_ Hclean].
      by rewrite Hm', ends_with_space_LF in Hclean.
Qed.

(** ** load_config *)

Lemma load_line_cases (config : dict) (line : string) :
  (Str.has_char "=" line = false ∧ load_line config line = Ok config)
  ∨ ∃ k v, Text.strip line = k +:+ String "=" v
           ∧ Str.has_char "=" k = false
           ∧ load_line config line = Ok (dict_set k v config).
Proof.
  unfold load_line. rewrite (contains_char "=" line).
  destruct (Str.has_char "=" line) eqn:Hhas; [right | by left].
  rewrite <- (has_char_strip "=" line plain_eq) in Hhas.
  unfold Text.split_1.
  destruct (Text.partition "=" (Text.strip line)) as [[k v] |] eqn:Hpart.
  - apply partition_Some in Hpart as [Heq Hk]. by exists k, v.
  - apply partition_None in Hpart. congruence.
Qed.

Lemma load_line_entry (config : dict) (line k v : string) :
  line_ok line → Text.strip line = k +:+ String "=" v →
  Str.has_char "=" k = false → entry_ok (k, v) = true.
Proof.
  intros Hline Heq Hk.
  destruct (strip_line_chars line Hline) as [Hcr Hlf].
  destruct (strip_clean line) as [Hstart Hend].
  rewrite Heq in Hcr, Hlf, Hstart, Hend.
  rewrite has_char_app in Hcr, Hlf. cbn [Str.has_char] in Hcr, Hlf.
  apply orb_false_iff in Hcr as [Hcr1 Hcr2], Hlf as [Hlf1 Hlf2].
  cbn [orb] in Hcr2, Hlf2.
  change (Ascii.eqb "=" Text.CR) with false in Hcr2.
  change (Ascii.eqb "=" Text.LF) with false in Hlf2.
  cbn [orb] in Hcr2, Hlf2.
  apply starts_with_space_app in Hstart.
  change (k +:+ String "=" v) with (k +:+ String "=" "" +:+ v) in Hend.
  rewrite <- app_assoc_s in Hend. apply ends_with_space_app in Hend.
  unfold entry_ok, key_ok, value_ok. cbn [fst snd].
  by rewrite Hk, Hcr1, Hcr2, Hlf1, Hlf2, Hstart, Hend.
Qed.

Lemma load_lines_ok (lines : list string) (config : dict) :
  Forall line_ok lines → config_ok config →
  ∃ config', load_lines config lines = Ok config' ∧ config_ok config'.
Proof.
  revert config. induction lines as [| line rest IH]; intros config Hl Hc.
  - by exists config.
  - apply Forall_cons in Hl as [Hline Hrest]. cbn [load_lines].
    destruct (load_line_cases config line)
      as [[_ ->] | (k & v & Heq & Hk & ->)]; cbn [bind].
    + by apply IH.
    + apply IH; [done |]. apply dict_set_ok; [| done].
      by apply (load_line_entry config line).
Qed.

Lemma load_lines_app (l1 l2 : list string) (config : dict) :
  load_lines config (l1 ++ l2)
  = (config' ←! load_lines config l1; load_lines config' l2).
Proof.
  revert config. induction l1 as [| line l1 IH]; intros config; [done |].
  cbn [app load_lines]. destruct (load_line config line); cbn [bind]; auto.
Qed.

(** The line [save_config] writes for an item. *)
Lemma entry_line (k v : string) :
  entry_ok (k, v) = true →
  Str.has_char Text.CR (k +:+ String "=" v) = false
  ∧ Str.has_char Text.LF (k +:+ String "=" v) = false
  ∧ Str.has_char "=" k = false
  ∧ Text.strip (k +:+ String "=" v +:+ String Text.LF "")
    = k +:+ String "=" v.
Proof.
  unfold entry_ok, key_ok, value_ok. cbn [fst snd].
  rewrite !andb_true_iff, !negb_true_iff.
  intros [[[[Hk Hlf1] Hcr1] Hstart] [[Hlf2 Hcr2] Hend]].
  rewrite !has_char_app. cbn [Str.has_char].
  rewrite Hcr1, Hcr2, Hlf1, Hlf2.
  repeat split; try done.
  unfold Text.strip.
  change (k +:+ String "=" v +:+ String Text.LF "")
    with (k +:+ String "=" (v +:+ String Text.LF "")).
  rewrite lstrip_id by (by apply starts_with_space_plain; [apply plain_eq |]).
  change (k +:+ String "=" (v +:+ String Text.LF ""))
    with (k +:+ String "=" "" +:+ v +:+ String Text.LF "").
  rewrite <- !app_assoc_s, rstrip_newline, app_assoc_s.
  apply rstrip_id. apply ends_with_space_plain; [apply plain_eq | done].
Qed.

Lemma save_config_cons (k v : string) (rest : dict) :
  save_config ((k, v) :: rest)
  = (k +:+ String "=" v) +:+ String Text.LF (save_config rest).
Proof. cbn [save_config]. by rewrite app_assoc_s. Qed.

Lemma save_config_no_CR (config : dict) :
  Forall (λ item, entry_ok item = true) config →
  Str.has_char Text.CR (save_config config) = false.
Proof.
  induction 1 as [| [k v] rest Hkv _ IH]; [done |].
  rewrite save_config_cons, has_char_app.
  destruct (entry_line k v Hkv) as (-> & _). cbn [Str.has_char orb].
  by change (Ascii.eqb Text.LF Text.CR) with false.
Qed.

(** Loading the line of an item sets it. *)
Lemma load_entry_line (config : dict) (k v : string) :
  entry_ok (k, v) = true →
  load_line config ((k +:+ String "=" v) +:+ String Text.LF "")
  = Ok (dict_set k v config).
Proof.
  intros Hkv. destruct (entry_line k v Hkv) as (_ & _ & Hk & Hstrip).
  unfold load_line. rewrite contains_char, !has_char_app.
  cbn [Str.has_char]. rewrite Ascii.eqb_refl, orb_true_r. cbn [orb].
  rewrite app_assoc_s, Hstrip. unfold Text.split_1.
  by rewrite (proj2 (partition_Some "=" _ k v)).
Qed.

Lemma readlines_entry_line (k v rest : string) :
  entry_ok (k, v) = true → Str.has_char Text.CR rest = false →
  Text.readlines ((k +:+ String "=" v) +:+ String Text.LF rest)
  = ((k +:+ String "=" v) +:+ String Text.LF "") :: Text.readlines rest.
Proof.
  intros Hkv Hrest. destruct (entry_line k v Hkv) as (Hcr & Hlf & _).
  unfold Text.readlines, Text.universal_newlines.
  rewrite !newlines_go_id; [| done |].
  - by rewrite lines_go_line.
  - rewrite has_char_app, Hcr. cbn [Str.has_char orb].
    by change (Ascii.eqb Text.LF Text.CR) with false.
Qed.

Lemma load_saved (config acc : dict) :
  Forall (λ item, entry_ok item = true) config →
  NoDup (map fst (acc ++ config)) →
  load_lines acc (Text.readlines (save_config config)) = Ok (acc ++ config).
Proof.
  intros Hall. revert acc.
  induction Hall as [| [k v] rest Hkv Hrest IH]; intros acc Hnd.
  - by rewrite app_nil_r.
  - rewrite save_config_cons, readlines_entry_line
      by auto using save_config_no_CR.
    cbn [load_lines]. rewrite load_entry_line by done. cbn [bind].
    rewrite dict_set_fresh.
    + rewrite IH; rewrite <- app_assoc; done.
    + rewrite map_app in Hnd. apply NoDup_app in Hnd as (_ & Hdis & _).
      intros Hin. apply (Hdis k Hin). left.
Qed.

(** ** The configuration file (lines 35-49) *)

(** X1: reading a configuration file that decodes as text, or none,
    raises nothing: every line with a "=" still has it once stripped, so
    the split yields two parts and the unpacking cannot fail.  The
    dictionary read has no key twice, no key with a "=", a line break or
    leading whitespace, and no value with a line break or trailing
    whitespace. *)
Theorem load_config_total (file : option string) :
  ∃ config, load_config file = Ok config ∧ config_ok config.
Proof.
  assert (Hempty : config_ok []) by (split; constructor).
  destruct file as [text |]; cbn [load_config]; [| eauto].
  apply load_lines_ok; [apply readlines_ok | done].
Qed.

(** X2: what [save_config] writes, [load_config] reads back unchanged,
    provided the keys are distinct, no key has a "=", a line break or
    leading whitespace, and no value has a line break or trailing
    whitespace. *)
Theorem load_save_config (config : dict) :
  config_ok config → load_config (Some (save_config config)) = Ok config.
Proof.
  intros [Hnd Hall]. apply (load_saved config []); done.
Qed.

(** X3: saving a configuration that was loaded and loading it again gives
    the same configuration: the file [save_config] writes is a normal form
    of the file read. *)
Theorem load_save_load (text : string) (config : dict) :
  load_config (Some text) = Ok config →
  load_config (Some (save_config config)) = Ok config.
Proof.
  intros Hload.
  destruct (load_lines_ok (Text.readlines text) [] (readlines_ok text))
    as (c & Hc & [Hnd Hall]); [split; constructor |].
  cbn [load_config] in Hload. rewrite Hload in Hc. injection Hc as <-.
  by apply (load_saved config []).
Qed.

(** X4: a line [key=value] added at the end of a configuration file
    whose last line is complete, for a key without "=", line break or
    leading whitespace and a value without line break or trailing
    whitespace, sets that key and leaves every other key as it was: the
    last line for a key wins. *)
Theorem load_config_append (text k v : string) (config : dict) :
  Text.terminated text = true → entry_ok (k, v) = true →
  load_config (Some text) = Ok config →
  load_config (Some (text +:+ k +:+ "=" +:+ v +:+ String Text.LF ""))
  = Ok (dict_set k v config)
  ∧ dict_get k (dict_set k v config) = Some v
  ∧ ∀ k', k' ≠ k → dict_get k' (dict_set k v config) = dict_get k' config.
Proof.
  intros Hterm Hkv Hload. split; [| split].
  - cbn [load_config] in Hload. cbn [load_config].
    change (k +:+ "=" +:+ v +:+ String Text.LF "")
      with (k +:+ String "=" (v +:+ String Text.LF "")).
    rewrite readlines_app by done.
    change (k +:+ String "=" (v +:+ String Text.LF ""))
      with (k +:+ (String "=" v +:+ String Text.LF "")).
    rewrite <- (app_assoc_s k), readlines_entry_line by done.
    rewrite load_lines_app, Hload. cbn [bind Text.readlines load_lines].
    rewrite load_entry_line by done. done.
  - apply dict_get_set.
  - intros k' Hne. by apply dict_get_set_ne.
Qed.

(** X5: a line without "=" (a comment, a blank line) added at the end of a
    configuration file whose last line is complete changes nothing of what
    is read. *)
Theorem load_config_skips (text line : string) :
  Text.terminated text = true → Str.has_char "=" line = false →
  load_config (Some (text +:+ line +:+ String Text.LF ""))
  = load_config (Some text).
Proof.
  intros Hterm Hline. cbn [load_config].
  rewrite readlines_app, load_lines_app by done.
  destruct (load_lines [] (Text.readlines text)) as [config |]; cbn [bind];
    [| done].
  assert (Hskip : ∀ l, Str.has_char "=" l = false →
                       load_line config l = Ok config).
  { intros l Hl. unfold load_line. by rewrite contains_char, Hl. }
  pose proof (readlines_ok (line +:+ String Text.LF "")) as Hok.
  assert (Hall : Forall (λ l, Str.has_char "=" l = false)
                   (Text.readlines (line +:+ String Text.LF ""))).
  { unfold Text.readlines, Text.universal_newlines.
    apply lines_go_char; [done |].
    apply newlines_go_char; [done | done |].
    rewrite has_char_app, Hline. done. }
  clear Hok. induction Hall as [| l rest Hl _ IH]; [done |].
  cbn [load_lines]. by rewrite Hskip.
Qed.

Lemma load_save_config_witness :
  config_ok [("client_id", "12345"); ("access_token", "a b=c")]
  ∧ load_config (Some (save_config
      [("client_id", "12345"); ("access_token", "a b=c")]))
    = Ok [("client_id", "12345"); ("access_token", "a b=c")].
Proof.
  assert (H : config_ok [("client_id", "12345"); ("access_token", "a b=c")]).
  { split.
    - repeat constructor; cbn; rewrite ?elem_of_cons; intros H;
        repeat (destruct H as [H | H]; [discriminate |]); by inversion H.
    - repeat constructor; by vm_compute. }
  split; [exact H | exact (load_save_config _ H)].
Defined.

Lemma load_save_load_witness :
  load_config (Some "a=1") = Ok [("a", "1")]
  ∧ load_config (Some (save_config [("a", "1")])) = Ok [("a", "1")].
Proof.
  assert (H : load_config (Some "a=1") = Ok [("a", "1")]) by by vm_compute.
  split; [exact H | exact (load_save_load _ _ H)].
Defined.

Lemma load_config_append_witness :
  Text.terminated ("a=1" +:+ String Text.LF "") = true
  ∧ entry_ok ("a", "2") = true
  ∧ load_config (Some ("a=1" +:+ String Text.LF "")) = Ok [("a", "1")]
  ∧ load_config (Some (("a=1" +:+ String Text.LF "")
                       +:+ "a" +:+ "=" +:+ "2" +:+ String Text.LF ""))
    = Ok (dict_set "a" "2" [("a", "1")]).
Proof.
  assert (H1 : Text.terminated ("a=1" +:+ String Text.LF "") = true)
    by by vm_compute.
  assert (H2 : entry_ok ("a", "2") = true) by by vm_compute.
  assert (H3 : load_config (Some ("a=1" +:+ String Text.LF ""))
               = Ok [("a", "1")]) by by vm_compute.
  repeat (split; [assumption |]).
  exact (proj1 (load_config_append _ _ _ _ H1 H2 H3)).
Defined.

Lemma load_config_skips_witness :
  Text.terminated ("a=1" +:+ String Text.LF "") = true
  ∧ Str.has_char "=" "# tokens" = false
  ∧ load_config (Some (("a=1" +:+ String Text.LF "") +:+ "# tokens"
                       +:+ String Text.LF ""))
    = load_config (Some ("a=1" +:+ String Text.LF "")).
Proof.
  assert (H1 : Text.terminated ("a=1" +:+ String Text.LF "") = true)
    by by vm_compute.
  assert (H2 : Str.has_char "=" "# tokens" = false) by by vm_compute.
  repeat (split; [assumption |]).
  exact (load_config_skips _ _ H1 H2).
Defined.

(** ** Decimal numerals *)

Lemma string_of_uint_digits (d : Decimal.uint) :
  all_digits (NilEmpty.string_of_uint d) = true.
Proof.
  induction d; cbn [NilEmpty.string_of_uint all_digits]; by rewrite ?IHd.
Qed.

Lemma of_N_digits (n : N) :
  all_digits (Text.of_N n) = true ∧ Text.of_N n ≠ "".
Proof.
  unfold Text.of_N, NilZero.string_of_uint.
  destruct (N.to_uint n) as [| d | d | d | d | d | d | d | d | d | d];
    try (split; [by apply (string_of_uint_digits (_ d)) | done]);
    split; done.
Qed.

Lemma of_N_inj (m n : N) : Text.of_N m = Text.of_N n → m = n.
Proof.
  unfold Text.of_N. intros H.
  assert (Hnil : ∀ k, N.to_uint k ≠ Decimal.Nil).
  { intros [| p]; [done | apply DecimalPos.Unsigned.to_uint_nonnil]. }
  apply (f_equal NilZero.uint_of_string) in H.
  rewrite !NilZero.usu in H by apply Hnil. injection H as H.
  by apply DecimalN.Unsigned.to_uint_inj.
Qed.

Lemma digit_cases (c : ascii) :
  is_digit c = true →
  Text.plain c = true ∧ Ascii.eqb c "+" = false
  ∧ Ascii.eqb c Text.LF = false ∧ Ascii.eqb c Text.CR = false.
Proof.
  unfold is_digit. cbn [existsb]. rewrite !orb_true_iff.
  intros H. repeat (destruct H as [->%Ascii.eqb_eq | H]; [by vm_compute |]).
  done.
Qed.

Lemma digits_has_char (c : ascii) (s : string) :
  is_digit c = false → all_digits s = true → Str.has_char c s = false.
Proof.
  intros Hc. induction s as [| d s IH]; [done |].
  cbn [all_digits Str.has_char]. intros [Hd Hs]%andb_true_iff.
  rewrite IH by done. destruct (Ascii.eqb_spec d c) as [-> |]; [| done].
  congruence.
Qed.

Lemma digits_no_space (s : string) :
  all_digits s = true → Text.ends_with_space s = false.
Proof.
  induction s as [| d s IH]; [by vm_compute |].
  cbn [all_digits]. intros [Hd Hs]%andb_true_iff.
  apply (ends_with_space_plain d "" s); [by apply digit_cases | by apply IH].
Qed.

(** ** Log entries *)

Lemma plain_plus : Text.plain "+" = true.
Proof. by vm_compute. Qed.

(** Two entries are equal only for the same name and the same size. *)
Lemma log_entry_inj (f1 f2 : string) (n1 n2 : N) :
  log_entry f1 n1 = log_entry f2 n2 → f1 = f2 ∧ n1 = n2.
Proof.
  unfold log_entry. intros H. apply (f_equal Text.rev) in H.
  change (?f +:+ "+" +:+ ?d) with (f +:+ String "+" d) in H.
  rewrite !rev_app, !rev_cons, !app_assoc_s in H.
  change (String "+" "" +:+ ?x) with (String "+" x) in H.
  assert (Hd : ∀ n, Str.has_char "+" (Text.rev (Text.of_N n)) = false).
  { intros n. rewrite has_char_rev. apply digits_has_char; [done |].
    apply of_N_digits. }
  pose proof (proj2 (partition_Some "+" _ _ (Text.rev f1))
                (conj eq_refl (Hd n1))) as P1.
  pose proof (proj2 (partition_Some "+" _ _ (Text.rev f2))
                (conj eq_refl (Hd n2))) as P2.
  rewrite H in P1. rewrite P1 in P2. injection P2 as Hn Hf.
  apply (f_equal Text.rev) in Hn, Hf. rewrite !rev_involutive in Hn, Hf.
  split; [done | by apply of_N_inj].
Qed.

Lemma log_entry_eqb (f1 f2 : string) (n1 n2 : N) :
  String.eqb (log_entry f1 n1) (log_entry f2 n2)
  = String.eqb f1 f2 && N.eqb n1 n2.
Proof.
  destruct (String.eqb_spec (log_entry f1 n1) (log_entry f2 n2)) as [H | H].
  - apply log_entry_inj in H as [-> ->].
    by rewrite String.eqb_refl, N.eqb_refl.
  - symmetry. apply andb_false_iff.
    destruct (String.eqb_spec f1 f2) as [-> |]; [right | by left].
    apply N.eqb_neq. intros ->. done.
Qed.

Lemma log_entry_line (filename : string) (filesize : N) :
  name_ok filename = true →
  Text.readlines (log_entry filename filesize +:+ String Text.LF "")
  = [log_entry filename filesize +:+ String Text.LF ""]
  ∧ Text.strip (log_entry filename filesize +:+ String Text.LF "")
    = log_entry filename filesize.
Proof.
  unfold name_ok. rewrite !andb_true_iff, !negb_true_iff.
  intros [[Hlf Hcr] Hstart].
  destruct (of_N_digits filesize) as [Hdig Hne].
  assert (Hcr' : Str.has_char Text.CR (log_entry filename filesize) = false).
  { unfold log_entry. rewrite has_char_app, Hcr.
    change ("+" +:+ ?d) with (String "+" d). cbn [Str.has_char orb].
    change (Ascii.eqb "+" Text.CR) with false. cbn [orb].
    by apply digits_has_char. }
  assert (Hlf' : Str.has_char Text.LF (log_entry filename filesize) = false).
  { unfold log_entry. rewrite has_char_app, Hlf.
    change ("+" +:+ ?d) with (String "+" d). cbn [Str.has_char orb].
    change (Ascii.eqb "+" Text.LF) with false. cbn [orb].
    by apply digits_has_char. }
  split.
  - unfold Text.readlines, Text.universal_newlines.
    rewrite newlines_go_id.
    + by rewrite lines_go_line.
    + rewrite has_char_app, Hcr'. cbn [Str.has_char orb].
      by change (Ascii.eqb Text.LF Text.CR) with false.
  - unfold Text.strip. rewrite lstrip_id.
    + rewrite rstrip_newline. apply rstrip_id. unfold log_entry.
      change ("+" +:+ ?d) with (String "+" d).
      apply ends_with_space_plain; [apply plain_plus |].
      by apply digits_no_space.
    + unfold log_entry. rewrite app_assoc_s.
      change (("+" +:+ ?d) +:+ ?x) with (String "+" (d +:+ x)).
      by apply starts_with_space_plain; [apply plain_plus |].
Qed.


(** ** The log of uploaded files (lines 52-70) *)

(** X6: after [log_uploaded_file] on a log that is missing, empty or ends
    with a newline, and for a file whose name has no line break and no
    leading whitespace, [is_already_uploaded] answers yes for exactly what
    it answered yes before and for the name and size just logged; the log
    again ends with a newline. *)
Theorem log_then_lookup (log : option string) (filepath filename : string)
    (size filesize : N) :
  Text.terminated (default "" log) = true →
  name_ok (Text.basename filepath) = true →
  ∃ text, log_uploaded_file log filepath size = Some text
    ∧ Text.terminated text = true
    ∧ is_already_uploaded (Some text) filename filesize
      = is_already_uploaded log filename filesize
        || String.eqb (Text.basename filepath) filename
           && N.eqb size filesize.
Proof.
  intros Hterm Hname. eexists. split; [reflexivity |].
  destruct (log_entry_line _ size Hname) as [Hlines Hstrip]. split.
  - unfold Text.terminated. rewrite <- app_assoc_s, endswith_app.
    apply orb_true_r.
  - cbn [is_already_uploaded]. rewrite readlines_app by done.
    rewrite existsb_app, Hlines. cbn [existsb].
    rewrite Hstrip, orb_false_r, log_entry_eqb. f_equal.
    destruct log as [text |]; [done |]. reflexivity.
Qed.


Lemma log_then_lookup_witness :
  let log := Some ("a.gpx+10" +:+ String Text.LF "") in
  Text.terminated (default "" log) = true
  ∧ name_ok (Text.basename "rides/b.gpx") = true
  ∧ ∃ text, log_uploaded_file log "rides/b.gpx" 2048 = Some text
      ∧ Text.terminated text = true
      ∧ is_already_uploaded (Some text) "b.gpx" 2048
        = is_already_uploaded log "b.gpx" 2048
          || String.eqb (Text.basename "rides/b.gpx") "b.gpx"
             && N.eqb 2048 2048.
Proof.
  intros log.
  split; [by vm_compute |]. split; [by vm_compute |].
  apply log_then_lookup; by vm_compute.
Defined.








(** ** Splitting *)

Lemma startswith_app (p rest : string) : Str.startswith p (p +:+ rest) = true.
Proof.
  induction p as [| a p IH]; [done |].
  rewrite app_cons. cbn [Str.startswith]. by rewrite Ascii.eqb_refl, IH.
Qed.

(** A prefix no longer than [a] that [a +:+ b] starts with is one of [a]. *)
Lemma startswith_short (p a b : string) :
  Str.startswith p (a +:+ b) = true → (String.length p ≤ String.length a)%nat →
  Str.startswith p a = true.
Proof.
  revert a. induction p as [| x p IH]; intros a; [done |].
  destruct a as [| y a]; cbn [String.length]; [lia |].
  rewrite app_cons. cbn [Str.startswith].
  intros [-> H]%andb_true_iff Hlen. cbn [andb]. apply IH; [done | lia].
Qed.

Lemma contains_app (sep pre rest : string) :
  Str.contains sep (pre +:+ sep +:+ rest) = true.
Proof.
  induction pre as [| c pre IH].
  - rewrite app_empty_l. destruct (sep +:+ rest) eqn:Heq;
      cbn [Str.contains]; rewrite <- Heq, startswith_app; done.
  - rewrite app_cons. cbn [Str.contains]. by rewrite IH, orb_true_r.
Qed.

Lemma split_go_skip (sep k rest cur : string) :
  Text.split_go sep (String.length k) cur (k +:+ rest)
  = match rest with
    | EmptyString => [cur]
    | _ => Text.split_go sep 0 cur rest
    end.
Proof.
  induction k as [| c k IH].
  - rewrite app_empty_l. by destruct rest.
  - rewrite app_cons. cbn [String.length Text.split_go]. apply IH.
Qed.

Lemma split_go_empty (sep cur : string) :
  Text.split_go sep 0 cur "" = [cur].
Proof. done. Qed.

Lemma split_go_skip' (sep k rest cur : string) :
  Text.split_go sep (String.length k) cur (k +:+ rest)
  = Text.split_go sep 0 cur rest.
Proof. rewrite split_go_skip. by destruct rest. Qed.

(** A separator at the front ends the current piece. *)
Lemma split_go_sep (a : ascii) (sep' rest cur : string) :
  Text.split_go (String a sep') 0 cur (String a sep' +:+ rest)
  = cur :: Text.split_go (String a sep') 0 "" rest.
Proof.
  rewrite app_cons. cbn [Text.split_go].
  assert (Str.startswith (String a sep') (String a (sep' +:+ rest)) = true)
    as -> by apply (startswith_app (String a sep')).
  replace (String.length (String a sep') - 1)%nat with (String.length sep')
    by (cbn [String.length]; lia).
  by rewrite split_go_skip'.
Qed.

(** Without a separator there is one piece. *)
Lemma split_go_none (sep s cur : string) :
  Str.contains sep s = false → Text.split_go sep 0 cur s = [cur +:+ s].
Proof.
  revert cur. induction s as [| c s IH]; intros cur.
  - by rewrite app_empty_r.
  - cbn [Str.contains]. intros [Hs Hc]%orb_false_iff.
    cbn [Text.split_go]. rewrite Hs, IH by done.
    by rewrite app_assoc_s.
Qed.

(** The first piece ends where the separator first occurs. *)
Lemma split_go_first (init : string) (z : ascii) (pre rest cur : string) :
  let sep := init +:+ String z "" in
  Str.contains sep (pre +:+ init) = false →
  Text.split_go sep 0 cur (pre +:+ sep +:+ rest)
  = (cur +:+ pre) :: Text.split_go sep 0 "" rest.
Proof.
  intros sep. revert cur. induction pre as [| c pre IH]; intros cur Hno.
  - rewrite app_empty_l, app_empty_r.
    destruct sep as [| a sep'] eqn:Hsep; [by destruct init |].
    apply split_go_sep.
  - rewrite app_cons in Hno. cbn [Str.contains] in Hno.
    apply orb_false_iff in Hno as [Hstart Hno].
    rewrite app_cons. cbn [Text.split_go].
    assert (Str.startswith sep (String c (pre +:+ sep +:+ rest)) = false)
      as ->.
    { apply not_true_iff_false. intros H.
      apply not_true_iff_false in Hstart. apply Hstart.
      apply (startswith_short sep (String c (pre +:+ init)) (String z rest)).
      - rewrite app_cons, app_assoc_s. unfold sep in H.
        by rewrite (app_assoc_s init) in H.
      - unfold sep. cbn [String.length]. rewrite !length_app_s.
        cbn [String.length]. lia. }
    rewrite IH by done. by rewrite app_assoc_s.
Qed.

Lemma split_go_cons (sep : string) (skip : nat) (cur s : string) :
  ∃ piece rest, Text.split_go sep skip cur s = piece :: rest.
Proof.
  revert skip cur.
  induction s as [| c s IH]; intros skip cur; [by eexists _, _ |].
  cbn [Text.split_go]. destruct skip; [| apply IH].
  destruct (Str.startswith sep _); [by eexists _, _ | apply IH].
Qed.

(** A text that holds the separator has at least two pieces. *)
Lemma split_go_two (sep s cur : string) :
  sep ≠ "" → Str.contains sep s = true →
  ∃ a b rest, Text.split_go sep 0 cur s = a :: b :: rest.
Proof.
  intros Hsep. revert cur. induction s as [| c s IH]; intros cur.
  - destruct sep; done.
  - cbn [Str.contains Text.split_go].
    destruct (Str.startswith sep (String c s)).
    + intros _. destruct (split_go_cons sep (String.length sep - 1) "" s)
        as (b & rest & ->). by eexists _, _, _.
    + cbn [orb]. apply IH.
Qed.

(** The first piece of a split at one character holds no such
    character. *)
Lemma split_go_char_head (z : ascii) (s cur : string) :
  Str.has_char z cur = false →
  ∃ piece rest, Text.split_go (String z "") 0 cur s = piece :: rest
                ∧ Str.has_char z piece = false.
Proof.
  revert cur. induction s as [| c s IH]; intros cur Hcur; [by eexists _, _ |].
  cbn [Text.split_go Str.startswith].
  destruct (Ascii.eqb z c) eqn:Hz; cbn [andb]; [by eexists _, _ |].
  apply IH. rewrite has_char_app, Hcur. cbn [Str.has_char orb].
  by rewrite Ascii.eqb_sym, Hz.
Qed.

(** ** The pasted authorisation code (lines 88-92) *)

(** X9: extracting the code never raises, and the code has no "&". *)
Theorem oauth_code_total (pasted : string) :
  ∃ code, oauth_code pasted = Ok code ∧ Str.has_char "&" code = false.
Proof.
  unfold oauth_code.
  assert (Hamp : ∀ s, ∃ code,
            of_option IndexError (Text.split "&" s !! 0%nat) = Ok code
            ∧ Str.has_char "&" code = false).
  { intros s. destruct (split_go_char_head "&" s "" eq_refl)
      as (piece & rest & Heq & Hpiece).
    exists piece. unfold Text.split. by rewrite Heq. }
  destruct (Str.contains "code=" (Text.strip pasted)) eqn:Hcode.
  - destruct (split_go_two "code=" (Text.strip pasted) "" ltac:(done) Hcode)
      as (a & b & rest & Heq).
    unfold Text.split at 1. rewrite Heq.
    cbn [lookup list_lookup of_option bind].
    apply Hamp.
  - cbn [bind]. apply Hamp.
Qed.

(** X10: from a pasted redirect URL the code is what stands between the first
    "code=" and the next "&" (or the end), when "code=" does not occur
    again. *)
Theorem oauth_code_url (pasted pre code tail : string) :
  Text.strip pasted = pre +:+ "code=" +:+ code +:+ tail →
  Str.contains "code=" (pre +:+ "code") = false →
  Str.contains "code=" (code +:+ tail) = false →
  Str.has_char "&" code = false →
  tail = "" ∨ Str.startswith "&" tail = true →
  oauth_code pasted = Ok code.
Proof.
  intros Hstrip Hpre Hrest Hamp Htail. unfold oauth_code.
  rewrite Hstrip, contains_app. unfold Text.split at 1.
  pose proof (split_go_first "code" "=" pre (code +:+ tail) "" Hpre) as H.
  cbv zeta in H. change ("code" +:+ "=") with "code=" in H.
  rewrite H, split_go_none by done. clear H.
  cbn [lookup list_lookup of_option bind]. rewrite !app_empty_l.
  unfold Text.split. destruct Htail as [-> | Htail].
  - rewrite app_empty_r, split_go_none by (by rewrite contains_char).
    done.
  - destruct tail as [| c tail]; [done |]. cbn [Str.startswith] in Htail.
    apply andb_true_iff in Htail as [<-%Ascii.eqb_eq _].
    pose proof (split_go_first "" "&" code tail "") as H.
    cbv zeta in H. change ("" +:+ "&") with "&" in H.
    change ("&" +:+ tail) with (String "&" tail) in H.
    rewrite H by (by rewrite app_empty_r, (contains_char "&")).
    done.
Qed.

(** X11: a pasted text without "code=" and without "&" is the code, stripped
    of surrounding whitespace. *)
Theorem oauth_code_bare (pasted : string) :
  Str.contains "code=" (Text.strip pasted) = false →
  Str.has_char "&" (Text.strip pasted) = false →
  oauth_code pasted = Ok (Text.strip pasted).
Proof.
  intros Hcode Hamp. unfold oauth_code. rewrite Hcode. cbn [bind].
  unfold Text.split. rewrite split_go_none by (by rewrite contains_char).
  done.
Qed.

Lemma oauth_code_url_witness :
  oauth_code " http://localhost/?state=&code=abc123&scope=read "
  = Ok "abc123".
Proof.
  apply (oauth_code_url _ "http://localhost/?state=&" "abc123" "&scope=read");
    [by vm_compute | by vm_compute | by vm_compute | by vm_compute |].
  right. by vm_compute.
Defined.

Lemma oauth_code_bare_witness :
  oauth_code "  abc123 " = Ok (Text.strip "  abc123 ").
Proof. apply oauth_code_bare; by vm_compute. Defined.

(** ** Paths *)

Lemma rpartition_None (c : ascii) (s : string) :
  Text.rpartition c s = None ↔ Str.has_char c s = false.
Proof.
  induction s as [| x s IH]; cbn [Text.rpartition Str.has_char]; [done |].
  destruct (Text.rpartition c s) as [[a b] |].
  - split; [done |]. intros [_ H]%orb_false_iff. by apply IH in H.
  - destruct (Ascii.eqb x c); cbn [orb]; [done |].
    split; [intros _; by apply IH | done].
Qed.

Lemma rpartition_Some (c : ascii) (s a b : string) :
  Text.rpartition c s = Some (a, b) ↔
  s = a +:+ String c b ∧ Str.has_char c b = false.
Proof.
  split.
  - revert a. induction s as [| x s IH]; intros a; [done |].
    cbn [Text.rpartition].
    destruct (Text.rpartition c s) as [[a' b'] |] eqn:Hs.
    + intros [= <- <-]. destruct (IH a' eq_refl) as [-> Hb].
      by rewrite app_cons.
    + destruct (Ascii.eqb_spec x c) as [-> |]; [| done].
      intros [= <- <-]. split; [done |]. by apply rpartition_None.
  - intros [-> Hb]. induction a as [| x a IH].
    + rewrite app_empty_l. cbn [Text.rpartition].
      apply rpartition_None in Hb. by rewrite Hb, Ascii.eqb_refl.
    + rewrite app_cons. cbn [Text.rpartition]. by rewrite IH.
Qed.

Lemma basename_no_slash (p : string) :
  Str.has_char "/" (Text.basename p) = false.
Proof.
  unfold Text.basename.
  destruct (Text.rpartition "/" p) as [[dir base] |] eqn:Hp.
  - by apply rpartition_Some in Hp as [_ H].
  - by apply rpartition_None.
Qed.

Lemma rpartition_app (c : ascii) (p x : string) :
  Str.has_char c x = false →
  Text.rpartition c (p +:+ x)
  = match Text.rpartition c p with
    | Some (a, b) => Some (a, b +:+ x)
    | None => None
    end.
Proof.
  intros Hx. destruct (Text.rpartition c p) as [[a b] |] eqn:Hp.
  - apply rpartition_Some in Hp as [-> Hb]. apply rpartition_Some.
    split; [by rewrite app_assoc_s | by rewrite has_char_app, Hb].
  - apply rpartition_None in Hp. apply rpartition_None.
    by rewrite has_char_app, Hp.
Qed.

Lemma basename_app (p x : string) :
  Str.has_char "/" x = false → Text.basename (p +:+ x) = Text.basename p +:+ x.
Proof.
  intros Hx. unfold Text.basename. rewrite rpartition_app by done.
  by destruct (Text.rpartition "/" p) as [[a b] |].
Qed.

Lemma basename_idem (p : string) :
  Text.basename (Text.basename p) = Text.basename p.
Proof.
  unfold Text.basename at 1.
  by rewrite (proj2 (rpartition_None "/" _) (basename_no_slash p)).
Qed.

Lemma all_char_app (c : ascii) (a b : string) :
  Text.all_char c (a +:+ b) = Text.all_char c a && Text.all_char c b.
Proof.
  induction a as [| x a IH]; [done |]. rewrite app_cons.
  cbn [Text.all_char]. by rewrite IH, andb_assoc.
Qed.

(** The extension of a path that ends with ".gz", after a name that is
    not made of dots only. *)
Lemma splitext_gz (q : string) :
  Text.all_char "." (Text.basename q) = false →
  Text.splitext (q +:+ ".gz") = (q, ".gz").
Proof.
  unfold Text.splitext, Text.basename.
  rewrite (rpartition_app "/" q ".gz") by done.
  destruct (Text.rpartition "/" q) as [[dir base] |] eqn:Hq; intros Hdots.
  - rewrite (proj2 (rpartition_Some "." (base +:+ ".gz") base "gz"))
      by done.
    rewrite Hdots. apply rpartition_Some in Hq as [-> _].
    by rewrite !app_assoc_s.
  - rewrite (proj2 (rpartition_Some "." (q +:+ ".gz") q "gz")) by done.
    by rewrite Hdots.
Qed.

(** What [splitext] returns as extension is empty or a dot followed by
    text without a dot. *)
Lemma splitext_ext (p : string) :
  (Text.splitext p).2 = ""
  ∨ ∃ e, (Text.splitext p).2 = String "." e ∧ Str.has_char "." e = false.
Proof.
  unfold Text.splitext.
  destruct (match Text.rpartition "/" p with
            | Some (dir, base) => (dir +:+ "/", base)
            | None => ("", p)
            end) as [dir base].
  destruct (Text.rpartition "." base) as [[stem ext] |] eqn:Hb; [| by left].
  destruct (Text.all_char "." stem); [by left | right].
  apply rpartition_Some in Hb as [_ Hext]. by exists ext.
Qed.

Lemma is_ascii_app (a b : string) :
  Str.is_ascii (a +:+ b) = Str.is_ascii a && Str.is_ascii b.
Proof.
  induction a as [| x a IH]; [done |]. rewrite app_cons.
  cbn [Str.is_ascii]. by rewrite IH, andb_assoc.
Qed.

Lemma splitext_ascii (p : string) :
  Str.is_ascii p = true → Str.is_ascii (Text.splitext p).2 = true.
Proof.
  intros Hp. unfold Text.splitext.
  assert (Hbase : ∃ dir base,
            match Text.rpartition "/" p with
            | Some (dir, base) => (dir +:+ "/", base)
            | None => ("", p)
            end = (dir, base) ∧ Str.is_ascii base = true).
  { destruct (Text.rpartition "/" p) as [[dir base] |] eqn:Hr.
    - eexists _, _. split; [done |].
      apply rpartition_Some in Hr as [-> _]. rewrite is_ascii_app in Hp.
      apply andb_true_iff in Hp as [_ Hp]. cbn [Str.is_ascii] in Hp.
      by apply andb_true_iff in Hp as [_ Hp].
    - by eexists _, _. }
  destruct Hbase as (dir & base & -> & Hbase).
  destruct (Text.rpartition "." base) as [[stem ext] |] eqn:Hb; [| done].
  destruct (Text.all_char "." stem); [done |].
  apply rpartition_Some in Hb as [-> _]. rewrite is_ascii_app in Hbase.
  by apply andb_true_iff in Hbase as [_ Hbase].
Qed.

Lemma ascii_lower_char_dot (c : ascii) :
  Ascii.eqb (Str.ascii_lower_char c) "." = Ascii.eqb c ".".
Proof.
  destruct c as [[] [] [] [] [] [] [] []]; by vm_compute.
Qed.

Lemma ascii_lower_dot (s : string) :
  Str.has_char "." (Str.ascii_lower s) = Str.has_char "." s.
Proof.
  induction s as [| c s IH]; [done |].
  cbn [Str.ascii_lower Str.has_char]. by rewrite ascii_lower_char_dot, IH.
Qed.

(** ** The fields of an upload request (lines 414-445) *)

Lemma endswith_char (c : ascii) (k t : string) :
  Str.endswith (String c k) t = true → Str.has_char c t = true.
Proof.
  induction t as [| a t IH]; cbn [Str.endswith Str.has_char].
  - rewrite orb_false_r. by intros ?%String.eqb_eq.
  - intros [[= <- _]%String.eqb_eq | Hend]%orb_true_iff.
    + by rewrite Ascii.eqb_refl.
    + rewrite (IH Hend). apply orb_true_r.
Qed.

Lemma contains_char_first (c : ascii) (k t : string) :
  Str.contains (String c k) t = true → Str.has_char c t = true.
Proof.
  induction t as [| a t IH]; cbn [Str.contains Str.startswith Str.has_char].
  - done.
  - intros [[Hc _]%andb_true_iff | H]%orb_true_iff.
    + by rewrite Ascii.eqb_sym, Hc.
    + rewrite (IH H). apply orb_true_r.
Qed.

(** The second assignment of [data_type] on an extension with one dot:
    the branch for ".gz" leaves the value as it is. *)
Lemma folder_data_type_dot (e current : string) :
  Str.has_char "." e = false →
  Upload.folder_data_type (String "." e) current
  = if String.eqb e "gpx" then "gpx"
    else if String.eqb e "tcx" then "tcx"
    else if String.eqb e "fit" then "fit"
    else if String.eqb e "gz" then current
    else "gpx".
Proof.
  intros He. unfold Upload.folder_data_type.
  change (String.eqb (String "." e) ".gpx") with (String.eqb e "gpx").
  change (String.eqb (String "." e) ".tcx") with (String.eqb e "tcx").
  change (String.eqb (String "." e) ".fit") with (String.eqb e "fit").
  destruct (String.eqb e "gpx"); [done |].
  destruct (String.eqb e "tcx"); [done |].
  destruct (String.eqb e "fit"); [done |].
  cbn [Str.endswith].
  assert (Str.endswith ".gz" e = false) as ->.
  { apply not_true_iff_false. intros H%endswith_char. congruence. }
  rewrite orb_false_r.
  change (String.eqb ".gz" (String "." e)) with (String.eqb "gz" e).
  rewrite (String.eqb_sym "gz" e).
  destruct (String.eqb_spec e "gz") as [-> |]; done.
Qed.

Section UploadProperties.

Context {L : PyLib}.
Variable parse : string → result Element.

(** X12: whatever the file, the [data_type] posted for an ASCII path is
    "gpx", "tcx", "fit" or "gz": the values "gpx.gz", "tcx.gz" and "fit.gz"
    of the ".gz" branch are never assigned, since the extension that
    [splitext] returns has a single dot. *)
Theorem folder_data_type_values (path : string)
    (fields : Upload.upload_fields) :
  Str.is_ascii path = true →
  Upload.folder_upload_fields parse path = Ok fields →
  In (Upload.data_type fields) ["gpx"; "tcx"; "fit"; "gz"].
Proof.
  intros Hascii. unfold Upload.folder_upload_fields.
  rewrite (str_lower_ascii _ (splitext_ascii path Hascii)).
  destruct (splitext_ext path) as [-> | (e & -> & He)].
  - cbn [Str.ascii_lower String.eqb bind fst]. intros [= <-]. cbn. tauto.
  - cbn [Str.ascii_lower].
    change (Str.ascii_lower_char ".") with "."%char.
    rewrite <- ascii_lower_dot in He. set (e' := Str.ascii_lower e) in * .
    change (String.eqb (String "." e') ".gpx") with (String.eqb e' "gpx").
    destruct (String.eqb e' "gpx") eqn:Hgpx.
    + destruct (Upload.gpx_activity parse path); cbn [bind]; [| done].
      intros [= <-]. cbn [Upload.data_type].
      rewrite folder_data_type_dot, Hgpx by done. cbn. tauto.
    + cbn [bind fst]. intros [= <-]. cbn [Upload.data_type].
      rewrite folder_data_type_dot, Hgpx by done.
      destruct (String.eqb e' "tcx"); [cbn; tauto |].
      destruct (String.eqb e' "fit"); [cbn; tauto |].
      destruct (String.eqb_spec e' "gz") as [-> |]; cbn; tauto.
Qed.

(** X13: a compressed file [x.gpx.gz], [x.tcx.gz] or [x.fit.gz] is posted
    with data type "gz", with the name [x.gpx] (or .tcx, .fit) as title and
    as a "Workout"; the classifier is not consulted. *)
Theorem folder_upload_compressed (stem kind : string) :
  In kind ["gpx"; "tcx"; "fit"] →
  Upload.folder_upload_fields parse (stem +:+ "." +:+ kind +:+ ".gz")
  = Ok (Upload.UploadFields "gz" (Text.basename stem +:+ "." +:+ kind) ""
          "Workout").
Proof.
  intros Hkind. unfold Upload.folder_upload_fields.
  assert (Hslash : Str.has_char "/" ("." +:+ kind) = false).
  { cbn in Hkind. by repeat (destruct Hkind as [<- | Hkind]; [done |]). }
  assert (Hdots : Text.all_char "." (Text.basename stem +:+ "." +:+ kind)
                  = false).
  { rewrite all_char_app. cbn in Hkind.
    repeat (destruct Hkind as [<- | Hkind]; [apply andb_false_r |]). done. }
  change (stem +:+ "." +:+ kind +:+ ".gz")
    with (stem +:+ ("." +:+ kind) +:+ ".gz").
  rewrite <- (app_assoc_s stem).
  rewrite (basename_app (stem +:+ "." +:+ kind) ".gz") by done.
  rewrite (basename_app stem ("." +:+ kind)) by done.
  rewrite (splitext_gz (stem +:+ "." +:+ kind))
    by (by rewrite (basename_app stem ("." +:+ kind))).
  rewrite (splitext_gz (Text.basename stem +:+ "." +:+ kind))
    by (by rewrite (basename_app _ ("." +:+ kind)), basename_idem).
  cbn [fst snd]. rewrite (str_lower_ascii ".gz") by done.
  reflexivity.
Qed.

End UploadProperties.

Lemma folder_data_type_values_witness :
  Str.is_ascii "rides/Evening.Ride.TCX" = true
  ∧ Upload.folder_upload_fields (λ _, Raise ValueError)
      "rides/Evening.Ride.TCX"
    = Ok (Upload.UploadFields "tcx" "Evening.Ride" "" "Workout")
  ∧ In (Upload.data_type
          (Upload.UploadFields "tcx" "Evening.Ride" "" "Workout"))
       ["gpx"; "tcx"; "fit"; "gz"].
Proof.
  assert (H1 : Str.is_ascii "rides/Evening.Ride.TCX" = true) by done.
  assert (H2 : Upload.folder_upload_fields (λ _, Raise ValueError)
                 "rides/Evening.Ride.TCX"
               = Ok (Upload.UploadFields "tcx" "Evening.Ride" "" "Workout"))
    by by vm_compute.
  split; [exact H1 |]. split; [exact H2 |].
  exact (folder_data_type_values _ _ _ H1 H2).
Defined.

Lemma folder_upload_compressed_witness :
  In "gpx" ["gpx"; "tcx"; "fit"]
  ∧ Upload.folder_upload_fields (λ _, Raise ValueError)
      ("tracks/morning" +:+ "." +:+ "gpx" +:+ ".gz")
    = Ok (Upload.UploadFields "gz" (Text.basename "tracks/morning" +:+ "."
                                     +:+ "gpx") "" "Workout").
Proof.
  assert (H : In "gpx" ["gpx"; "tcx"; "fit"]) by (left; reflexivity).
  split; [exact H | exact (folder_upload_compressed _ _ _ H)].
Defined.

(** ** Setup and the next start (lines 110-118, 509-519) *)

(** X14: the configuration that [tutorial_setup] saves is read back
    unchanged at the next start and passes the completeness test of [main],
    when the five values are non-empty and have no line break and no
    trailing whitespace. *)
Theorem setup_config_accepted (client_id client_secret access_token
    refresh_token expires_at : string) :
  let config := setup_config client_id client_secret access_token
                  refresh_token expires_at in
  Forall (λ v, value_ok v = true ∧ v ≠ "")
    [client_id; client_secret; access_token; refresh_token; expires_at] →
  load_config (Some (save_config config)) = Ok config
  ∧ has_required_keys config = true.
Proof.
  intros config Hall.
  repeat (apply Forall_cons in Hall as [[? ?%String.eqb_neq] Hall]).
  split.
  - apply (load_saved config []).
    + unfold config, setup_config, entry_ok. cbn [fst snd].
      repeat (constructor; [by apply andb_true_iff |]). constructor.
    + cbn. repeat (constructor; [rewrite ?elem_of_cons, elem_of_nil;
                                 intros H'; intuition discriminate |]).
      constructor.
  - unfold config, setup_config, has_required_keys, REQUIRED_KEYS.
    cbn [forallb dict_get String.eqb Ascii.eqb Bool.eqb].
    by repeat match goal with H : String.eqb _ "" = false |- _ =>
                rewrite H; clear H end.
Qed.

Section ClassifierProperties.

Context {L : PyLib}.

(** ** The label normaliser (lines 24-32, 158-162) *)

(** X15: normalising is idempotent: a label that [normalize_activity]
    returns is normalised to itself. *)
Theorem normalize_activity_idempotent (label : pyobj) (l : string) :
  normalize_activity label = Ok l → normalize_activity (PyStr l) = Ok l.
Proof.
  assert (Hlabels : ∀ l', In l' ["Ride"; "Run"; "Swim"; "Walk"; "Hike";
                                 "Workout"; "Other"] →
                          normalize_activity (PyStr l') = Ok l').
  { intros l' Hl'. cbn in Hl'.
    repeat (destruct Hl' as [<- | Hl'];
            [ rewrite normalize_str, str_lower_ascii by reflexivity;
              reflexivity |]).
    destruct Hl'. }
  assert (Hcanon : ∀ tag, In (canonical_label tag)
            ["Ride"; "Run"; "Swim"; "Walk"; "Hike"; "Workout"; "Other"]).
  { intros tag. unfold canonical_label.
    repeat match goal with
    | |- context [if ?b then _ else _] => destruct b
    end; cbn; tauto. }
  destruct label as [| n | s].
  - intros [= <-]. apply Hlabels. cbn. tauto.
  - unfold normalize_activity. cbn [truthy]. rewrite negb_involutive.
    destruct (n =? 0); [| done]. intros [= <-]. apply Hlabels. cbn. tauto.
  - rewrite normalize_str. intros [= <-]. apply Hlabels, Hcanon.
Qed.

(** ** The kinematic detector (lines 234-283) *)

(** X16: the kinematic detector answers swim exactly for the documents with
    a node whose case-folded tag contains "depth": no speed makes a swim. *)
Theorem test_data_swim_iff (root : Element) :
  test_data root = Ok (PyStr "swim") ↔ has_depth root = true.
Proof.
  split; [| by intros ->%test_data_depth].
  unfold test_data. destruct (has_depth root); [done |].
  destruct (_ <? _)%nat; [done |].
  destruct (elapsed _) as [t |]; cbn [bind]; [| done].
  destruct (add_distances _ _) as [d |]; cbn [bind]; [| done].
  destruct (t <=. 0); [done |].
  destruct (avg_speed d t) as [v |]; cbn [bind]; [| done].
  unfold heuristic.
  repeat match goal with
  | |- context [if ?b then _ else _] => destruct b
  end; done.
Qed.

(** X17: a track of at least ten points whose first and last time stamps are
    not both with or both without a UTC offset makes the kinematic detector
    raise TypeError, and the classifier with it, whatever the metadata and
    the keywords say. *)
Theorem mixed_timestamps_raise (root : Element) (a : bool) :
  has_depth root = false →
  (10 ≤ length (extract_points root))%nat →
  aware <$> head (extract_points root) = Some a →
  aware <$> last (extract_points root) = Some (negb a) →
  test_data root = Raise TypeError
  ∧ determine_gpx_activity root = Raise TypeError.
Proof.
  intros Hdepth Hlen%Nat.ltb_ge Hhead Hlast.
  assert (Hdata : test_data root = Raise TypeError).
  { unfold test_data. rewrite Hdepth, Hlen. unfold elapsed.
    destruct (last (extract_points root)) as [pn |]; [| done].
    destruct (head (extract_points root)) as [p0 |]; [| done].
    cbn in Hhead, Hlast. injection Hhead as Hhead. injection Hlast as Hlast.
    unfold aware in Hhead, Hlast. unfold DT.sub.
    destruct (utcoffset pn.2), (utcoffset p0.2); cbn [bind]; try done;
      exfalso; subst a; revert Hlast;
      rewrite ?bool_decide_eq_true_2, ?bool_decide_eq_false_2
        by (rewrite ?is_Some_alt; eauto; by intros []);
      done. }
  split; [exact Hdata |].
  unfold determine_gpx_activity. by rewrite Hdata.
Qed.

End ClassifierProperties.

Lemma setup_config_accepted_witness :
  Forall (λ v, value_ok v = true ∧ v ≠ "")
    ["1234"; "s3cr=t"; "abc"; "def"; "1700000000"]
  ∧ load_config (Some (save_config
      (setup_config "1234" "s3cr=t" "abc" "def" "1700000000")))
    = Ok (setup_config "1234" "s3cr=t" "abc" "def" "1700000000")
  ∧ has_required_keys (setup_config "1234" "s3cr=t" "abc" "def" "1700000000")
    = true.
Proof.
  assert (H : Forall (λ v, value_ok v = true ∧ v ≠ "")
                ["1234"; "s3cr=t"; "abc"; "def"; "1700000000"]).
  { repeat (constructor; [split; [by vm_compute | done] |]). constructor. }
  split; [exact H |].
  exact (setup_config_accepted "1234" "s3cr=t" "abc" "def" "1700000000" H).
Defined.

Lemma normalize_activity_idempotent_witness :
  normalize_activity (PyStr "RUN") = Ok "Run"
  ∧ normalize_activity (PyStr "Run") = Ok "Run".
Proof.
  assert (H : normalize_activity (PyStr "RUN") = Ok "Run") by by vm_compute.
  split; [exact H | exact (normalize_activity_idempotent _ _ H)].
Defined.

Lemma mixed_timestamps_raise_witness :
  has_depth Docs.mixed_zone_doc = false
  ∧ (10 ≤ length (extract_points Docs.mixed_zone_doc))%nat
  ∧ aware <$> head (extract_points Docs.mixed_zone_doc) = Some true
  ∧ aware <$> last (extract_points Docs.mixed_zone_doc) = Some (negb true)
  ∧ test_data Docs.mixed_zone_doc = Raise TypeError
  ∧ determine_gpx_activity Docs.mixed_zone_doc = Raise TypeError.
Proof.
  assert (H1 : has_depth Docs.mixed_zone_doc = false) by by vm_compute.
  assert (H2 : (10 ≤ length (extract_points Docs.mixed_zone_doc))%nat).
  { apply Nat.leb_le. by vm_compute. }
  assert (H3 : aware <$> head (extract_points Docs.mixed_zone_doc)
               = Some true) by by vm_compute.
  assert (H4 : aware <$> last (extract_points Docs.mixed_zone_doc)
               = Some (negb true)) by by vm_compute.
  repeat (split; [assumption |]).
  exact (mixed_timestamps_raise _ _ H1 H2 H3 H4).
Defined.
